(** * GlowGo calendar availability engine

    A shallow embedding of [services/tools/calendar_tools.py]: the slot
    finder [_find_available_slots], the best-slot selector
    [_find_best_slot_for_day], the keyword importance classifier, the
    capability-based detector [detect_important_events_with_llm], the
    suggestion composer [_build_smart_suggestion] and the entry point
    [analyze_calendar_for_smart_suggestions] that ties them together.

    Conventions of the embedding:
    - a Python [str] is a [string] (a sequence of bytes; the case functions
      act on ASCII letters);
    - a [datetime] is a wall-clock reading in microseconds since
      1970-01-01T00:00 together with its UTC offset; aware datetimes are
      compared and subtracted through their instants, their fields
      ([date()], [hour], [minute]) are read off the wall clock;
    - a [timedelta] is an integer number of microseconds, and the test
      [delta.total_seconds() / 60 >= n] is read in exact arithmetic;
    - the clock ([datetime.now(tz)]), the token store and the calendar
      provider are inputs of the functions that consult them. *)

From Stdlib Require Import ZArith List String Ascii Bool Lia Sorting.Sorted.
Import ListNotations.

Open Scope Z_scope.

(** ** Python string operations used by the module *)

Module Str.

Local Open Scope string_scope.

(** [c.lower()] on one ASCII character. *)
Definition lower_ascii (c : ascii) : ascii :=
  let n := nat_of_ascii c in
  if (Nat.leb 65 n && Nat.leb n 90)%bool then ascii_of_nat (n + 32) else c.

(** [s.lower()] *)
Fixpoint lower (s : string) : string :=
  match s with
  | EmptyString => EmptyString
  | String c s' => String (lower_ascii c) (lower s')
  end.

(** [sub in s] *)
Fixpoint contains (sub s : string) : bool :=
  if String.prefix sub s then true
  else match s with
       | EmptyString => false
       | String _ s' => contains sub s'
       end.

(** [any(kw in s for kw in kws)] *)
Definition any_in (kws : list string) (s : string) : bool :=
  existsb (fun kw => contains kw s) kws.

(** [s.split(sep)] for a non-empty separator: [skip] counts the characters
    of a separator occurrence still to be dropped, [acc] is the piece being
    read. *)
Fixpoint split_aux (sep : string) (skip : nat) (acc s : string) : list string :=
  match s with
  | EmptyString => [acc]
  | String c s' =>
      match skip with
      | S k => split_aux sep k acc s'
      | O =>
          if String.prefix sep s
          then acc :: split_aux sep (Nat.pred (String.length sep)) EmptyString s'
          else split_aux sep O (acc ++ String c EmptyString) s'
      end
  end.

Definition split (sep s : string) : list string := split_aux sep O EmptyString s.

(** Whitespace as [str.strip()] with no argument understands it on ASCII. *)
Definition is_space (c : ascii) : bool :=
  let n := nat_of_ascii c in
  ((Nat.leb 9 n && Nat.leb n 13) || (Nat.leb 28 n && Nat.leb n 32))%bool.

Fixpoint lstrip (s : string) : string :=
  match s with
  | EmptyString => EmptyString
  | String c s' => if is_space c then lstrip s' else s
  end.

Fixpoint rstrip (s : string) : string :=
  match s with
  | EmptyString => EmptyString
  | String c s' =>
      match rstrip s' with
      | EmptyString => if is_space c then EmptyString else String c EmptyString
      | r => String c r
      end
  end.

(** [s.strip()] *)
Definition strip (s : string) : string := rstrip (lstrip s).

(** [s.lstrip("0")] *)
Fixpoint lstrip_zero (s : string) : string :=
  match s with
  | String "0"%char s' => lstrip_zero s'
  | _ => s
  end.

(** [sep.join(parts)] *)
Fixpoint join (sep : string) (parts : list string) : string :=
  match parts with
  | [] => EmptyString
  | [p] => p
  | p :: ps => p ++ sep ++ join sep ps
  end.

Definition digit (n : Z) : ascii := ascii_of_nat (48 + Z.to_nat n).

(** A field printed on two digits, as [%I], [%M] and [%d] are. *)
Definition two_digits (n : Z) : string :=
  String (digit (n / 10)) (String (digit (n mod 10)) EmptyString).

(** [str(n)] for a natural number ([fuel] bounds the number of digits). *)
Fixpoint of_nat_aux (fuel : nat) (n : Z) (acc : string) : string :=
  match fuel with
  | O => acc
  | S f =>
      let acc' := String (digit (n mod 10)) acc in
      if Z.eqb (n / 10) 0 then acc' else of_nat_aux f (n / 10) acc'
  end.

Definition of_nat (n : nat) : string := of_nat_aux (S n) (Z.of_nat n) EmptyString.

End Str.

(** ** Aware datetimes *)

Module DT.

Definition usec_per_second : Z := 1000000.
Definition usec_per_minute : Z := 60 * usec_per_second.
Definition usec_per_hour : Z := 60 * usec_per_minute.
Definition usec_per_day : Z := 24 * usec_per_hour.

(** [timedelta(minutes=m)], [timedelta(hours=h)], [timedelta(days=d)] *)
Definition minutes (m : Z) : Z := m * usec_per_minute.
Definition hours (h : Z) : Z := h * usec_per_hour.
Definition days (d : Z) : Z := d * usec_per_day.

(** A naive datetime is its wall-clock reading. *)
Definition naive := Z.

Record datetime : Type := mk_datetime {
  wall : naive;      (* local wall clock, microseconds since 1970-01-01T00:00 *)
  utcoffset : Z      (* offset of the attached tzinfo, microseconds *)
}.

(** The instant an aware datetime denotes; [<], [>=] and [-] between aware
    datetimes go through it. *)
Definition instant (d : datetime) : Z := wall d - utcoffset d.

Definition lt (a b : datetime) : bool := instant a <? instant b.
Definition gt (a b : datetime) : bool := instant b <? instant a.
Definition ge (a b : datetime) : bool := instant b <=? instant a.

(** [a - b], a timedelta *)
Definition sub (a b : datetime) : Z := instant a - instant b.

(** [d + delta]: wall-clock arithmetic, the tzinfo is kept. *)
Definition add (d : datetime) (delta : Z) : datetime :=
  mk_datetime (wall d + delta) (utcoffset d).

(** Fields of a wall-clock reading. *)
Definition date_of (w : naive) : Z := w / usec_per_day.
Definition hour_of (w : naive) : Z := (w mod usec_per_day) / usec_per_hour.
Definition minute_of (w : naive) : Z := (w mod usec_per_hour) / usec_per_minute.

(** [d.date()], [d.hour], [d.minute] *)
Definition date (d : datetime) : Z := date_of (wall d).
Definition hour (d : datetime) : Z := hour_of (wall d).
Definition minute (d : datetime) : Z := minute_of (wall d).

(** [w.replace(hour=h, minute=m, second=s)]: the microsecond is kept. *)
Definition naive_replace_hms (w : naive) (h m s : Z) : naive :=
  date_of w * usec_per_day + hours h + minutes m + s * usec_per_second
  + w mod usec_per_second.

(** [w.replace(hour=h, minute=0, second=0, microsecond=0)] *)
Definition naive_replace_hmsu (w : naive) (h : Z) : naive :=
  date_of w * usec_per_day + hours h.

(** [d.replace(hour=h, minute=m)]: second, microsecond and tzinfo are kept. *)
Definition replace_hm (d : datetime) (h m : Z) : datetime :=
  mk_datetime (date d * usec_per_day + hours h + minutes m
               + wall d mod usec_per_minute) (utcoffset d).

(** [d.replace(minute=m)] *)
Definition replace_m (d : datetime) (m : Z) : datetime :=
  replace_hm d (hour d) m.

(** [gap = (a - b).total_seconds() / 60] followed by [gap >= n]. *)
Definition gap_ge (a b : datetime) (n : Z) : bool := minutes n <=? sub a b.

Local Open Scope string_scope.

(** [d.strftime("%I:%M %p")] *)
Definition strftime_IMp (d : datetime) : string :=
  let h12 := if Z.eqb (hour d mod 12) 0 then 12 else hour d mod 12 in
  Str.two_digits h12 ++ ":" ++ Str.two_digits (minute d) ++ " "
  ++ (if Z.ltb (hour d) 12 then "AM" else "PM").

(** The civil date of a day number (days since 1970-01-01), proleptic
    Gregorian calendar: (year, month, day). *)
Definition civil_of_days (z0 : Z) : Z * Z * Z :=
  let z := z0 + 719468 in
  let era := z / 146097 in
  let doe := z - era * 146097 in
  let yoe := (doe - doe / 1460 + doe / 36524 - doe / 146096) / 365 in
  let doy := doe - (365 * yoe + yoe / 4 - yoe / 100) in
  let mp := (5 * doy + 2) / 153 in
  let d := doy - (153 * mp + 2) / 5 + 1 in
  let m := if Z.ltb mp 10 then mp + 3 else mp - 9 in
  let y := yoe + era * 400 + (if Z.leb m 2 then 1 else 0) in
  (y, m, d).

Definition weekday_name (z0 : Z) : string :=
  nth (Z.to_nat ((z0 + 3) mod 7))
      ["Monday"; "Tuesday"; "Wednesday"; "Thursday"; "Friday"; "Saturday";
       "Sunday"] "".

Definition month_name (m : Z) : string :=
  nth (Z.to_nat (m - 1))
      ["January"; "February"; "March"; "April"; "May"; "June"; "July";
       "August"; "September"; "October"; "November"; "December"] "".

(** [d.strftime("%A, %B %d")] *)
Definition strftime_ABd (d : datetime) : string :=
  let '(_, m, dd) := civil_of_days (date d) in
  weekday_name (date d) ++ ", " ++ month_name m ++ " " ++ Str.two_digits dd.

(** A time zone, as [tz.localize] uses it: the UTC offset in force at a
    wall-clock reading. *)
Definition tzinfo := naive -> Z.

(** [tz.localize(w)] *)
Definition localize (tz : tzinfo) (w : naive) : datetime :=
  mk_datetime w (tz w).

(** A wall-clock reading from its civil fields, for writing examples:
    [at_ day h m] is [h:m:00] on day number [day]. *)
Definition at_ (day h m : Z) : naive := days day + hours h + minutes m.

End DT.

Import DT.

Open Scope string_scope.
Open Scope list_scope.
Open Scope Z_scope.

(** ** The dictionaries of the module, as records *)

(** An entry of [processed_events]. *)
Module Event.
Record t : Type := mk {
  name : string;
  start : datetime;
  end_ : datetime;
  location : string
}.
End Event.

(** An entry of [_find_available_slots]' result.  The dictionary stores the
    two bounds through [strftime] only; the record keeps the datetimes they
    are printed from, and [start_time] and [end_time] are the stored
    strings. *)
Module Slot.
Inductive kind : Type :=
  | before_first_event
  | between_events
  | after_last_event
  | free_day.

Record t : Type := mk {
  start : datetime;
  end_ : datetime;
  date : string;
  type : kind;
  note : string
}.

Definition start_time (s : t) : string := strftime_IMp (start s).
Definition end_time (s : t) : string := strftime_IMp (end_ s).

(** The length of the slot: [end - start]. *)
Definition duration (s : t) : Z := DT.sub (end_ s) (start s).
End Slot.

(** ** Sorting, as [list.sort(key=...)] does it: stable, ascending *)

Section Sort.
Context {A : Type} (key : A -> Z).

Fixpoint insert_by (x : A) (l : list A) : list A :=
  match l with
  | [] => [x]
  | y :: l' => if key x <=? key y then x :: l else y :: insert_by x l'
  end.

Definition sort_by (l : list A) : list A := fold_right insert_by [] l.

End Sort.

(** [l[-1]] of a list known to be non-empty ([d] is its first element). *)
Definition last_of {A : Type} (d : A) (l : list A) : A := last l d.

(** ** Slot Finder *)

Section SlotFinder.

Variable tz : tzinfo.

Definition business_start : Z := 9.
Definition business_end : Z := 19.

(** [tz.localize(target.replace(hour=0, minute=0, second=0))] *)
Definition target_of (target_date : naive) : datetime :=
  localize tz (naive_replace_hms target_date 0 0 0).

(** [e["start"].date() == target.date()], then [sort(key=start)]. *)
Definition day_events_of (events : list Event.t) (target : datetime) : list Event.t :=
  sort_by (fun e => instant (Event.start e))
          (filter (fun e => date (Event.start e) =? date target) events).

(** The start of the search window (lines 523-525). *)
Definition window_start (target now : datetime) : datetime :=
  let day_start := replace_hm target business_start 0 in
  if (date now =? date target) && (business_start <=? hour now)
  then add now (minutes 30)
  else day_start.

(** The loop over [range(len(day_events) - 1)]. *)
Fixpoint between_slots (target : datetime) (total_time_needed buffer_time : Z)
    (day_events : list Event.t) : list Slot.t :=
  match day_events with
  | cur :: ((nxt :: _) as rest) =>
      let current_end := add (Event.end_ cur) (minutes buffer_time) in
      let next_start := add (Event.start nxt) (- minutes buffer_time) in
      (if gap_ge next_start current_end total_time_needed
       then [Slot.mk current_end next_start (strftime_ABd target)
               Slot.between_events
               ("Between " ++ Event.name cur ++ " and " ++ Event.name nxt)%string]
       else [])
      ++ between_slots target total_time_needed buffer_time rest
  | _ => []
  end.

Definition _find_available_slots (events : list Event.t)
    (target_date : option naive) (total_time_needed buffer_time : Z)
    (now : datetime) : list Slot.t :=
  match target_date with
  | None => []
  | Some target_date =>
      let target := target_of target_date in
      let day_events := day_events_of events target in
      let day_start := window_start target now in
      match day_events with
      | first :: _ =>
          let first_event_start := add (Event.start first) (- minutes buffer_time) in
          let last_event_end :=
            add (Event.end_ (last_of first day_events)) (minutes buffer_time) in
          let day_end := replace_hm target business_end 0 in
          (if gap_ge first_event_start day_start total_time_needed
           then [Slot.mk day_start first_event_start (strftime_ABd target)
                   Slot.before_first_event
                   ("Before your " ++ Event.name first)%string]
           else [])
          ++ between_slots target total_time_needed buffer_time day_events
          ++ (if gap_ge day_end last_event_end total_time_needed
              then [Slot.mk last_event_end day_end (strftime_ABd target)
                      Slot.after_last_event
                      ("After your " ++ Event.name (last_of first day_events))%string]
              else [])
      | [] =>
          [Slot.mk day_start (replace_hm target business_end 0)
             (strftime_ABd target) Slot.free_day
             "Your calendar is free this day!"]
      end
  end.

End SlotFinder.

(** ** Best-Slot Selector *)

(** An entry of the selector's [available_slots]; its ["minutes"] entry is
    written and never read. *)
Module Gap.
Record t : Type := mk {
  start : datetime;
  end_ : datetime
}.
End Gap.

Section BestSlot.

Variable tz : tzinfo.

Definition day_start_hour : Z := 9.
Definition day_end_hour : Z := 19.
Definition preferred_hours : list Z := [10; 11; 12; 13; 14].

(** The window of the selector (lines 389-396). *)
Definition best_day_start (target_day now : datetime) : datetime :=
  let day_start := localize tz (naive_replace_hmsu (wall target_day) day_start_hour) in
  if date target_day =? date now
  then let earliest_start := add now (hours 1) in
       if gt earliest_start day_start then earliest_start else day_start
  else day_start.

Definition best_day_end (target_day : datetime) : datetime :=
  localize tz (naive_replace_hmsu (wall target_day) day_end_hour).

(** [busy_periods], sorted by start (lines 403-410). *)
Definition busy_periods_of (events_on_day : list Event.t) (buffer_time : Z)
  : list (datetime * datetime) :=
  sort_by (fun p => instant (fst p))
    (map (fun event => (add (Event.start event) (- minutes buffer_time),
                        add (Event.end_ event) (minutes buffer_time)))
         events_on_day).

(** The loop over [range(len(busy_periods) - 1)]. *)
Fixpoint between_gaps (total_time_needed : Z) (busy_periods : list (datetime * datetime))
  : list Gap.t :=
  match busy_periods with
  | cur :: ((nxt :: _) as rest) =>
      let gap_start := snd cur in
      let gap_end := fst nxt in
      (if gap_ge gap_end gap_start total_time_needed
       then [Gap.mk gap_start gap_end] else [])
      ++ between_gaps total_time_needed rest
  | _ => []
  end.

(** [available_slots] (lines 413-446); [busy_periods] is not empty when the
    code reaches them. *)
Definition available_gaps (day_start day_end : datetime) (total_time_needed : Z)
    (busy_periods : list (datetime * datetime)) : list Gap.t :=
  match busy_periods with
  | [] => []
  | first :: _ =>
      let lst := last_of first busy_periods in
      (if gt (fst first) day_start
       then if gap_ge (fst first) day_start total_time_needed
            then [Gap.mk day_start (fst first)] else []
       else [])
      ++ between_gaps total_time_needed busy_periods
      ++ (if lt (snd lst) day_end
          then if gap_ge day_end (snd lst) total_time_needed
               then [Gap.mk (snd lst) day_end] else []
          else [])
  end.

(** The inner loop over [preferred_hours] for one slot: the first hour that
    passes both tests. *)
Fixpoint preferred_in (slot : Gap.t) (hs : list Z) : option datetime :=
  match hs with
  | [] => None
  | preferred_hour :: hs' =>
      let suggested_dt := replace_hm (Gap.start slot) preferred_hour 0 in
      if (hour (Gap.start slot) <=? preferred_hour)
         && (preferred_hour <? hour (Gap.end_ slot))
         && ge suggested_dt (Gap.start slot)
         && lt suggested_dt (Gap.end_ slot)
      then Some suggested_dt
      else preferred_in slot hs'
  end.

(** The outer loop over [available_slots]. *)
Fixpoint first_preferred (slots : list Gap.t) : option datetime :=
  match slots with
  | [] => None
  | slot :: slots' =>
      match preferred_in slot preferred_hours with
      | Some suggested_dt => Some suggested_dt
      | None => first_preferred slots'
      end
  end.

(** Lines 466-473: the anchor when no slot holds a preferred hour. *)
Definition round_first_slot (first_slot : Gap.t) : datetime :=
  let suggested_minute := if minute (Gap.start first_slot) <? 30 then 0 else 30 in
  if 30 <? minute (Gap.start first_slot)
  then add (replace_m (Gap.start first_slot) 0) (hours 1)
  else replace_m (Gap.start first_slot) suggested_minute.

Definition _find_best_slot_for_day (target_day : datetime)
    (events_on_day : list Event.t) (total_time_needed buffer_time : Z)
    (now : datetime) : string :=
  let day_start := best_day_start target_day now in
  let day_end := best_day_end target_day in
  match events_on_day with
  | [] => "11:00 AM"
  | _ :: _ =>
      let busy_periods := busy_periods_of events_on_day buffer_time in
      let available_slots :=
        available_gaps day_start day_end total_time_needed busy_periods in
      match available_slots with
      | [] => "No available time"
      | first_slot :: _ =>
          match first_preferred available_slots with
          | Some suggested_dt => Str.lstrip_zero (strftime_IMp suggested_dt)
          | None => Str.lstrip_zero (strftime_IMp (round_first_slot first_slot))
          end
      end
  end.

End BestSlot.

(** ** Importance Classifier (keyword rule) *)

Definition IMPORTANT_EVENT_KEYWORDS : list string :=
  [ "meeting"; "interview"; "presentation"; "conference"; "pitch";
    "client"; "networking"; "board meeting"; "review"; "demo";
    "wedding"; "baby shower"; "bridal shower"; "birthday party";
    "engagement"; "anniversary"; "graduation"; "gala"; "fundraiser";
    "date"; "date night"; "dinner party"; "reception";
    "competition"; "recital"; "performance"; "photoshoot"; "photo";
    "video"; "recording"; "audition"; "show";
    "family dinner"; "reunion"; "holiday"; "thanksgiving"; "christmas";
    "easter"; "passover"; "new year"; "party" ].

Definition _get_importance_reason (event_name_lower : string) : string :=
  if Str.any_in ["wedding"; "bridal"; "engagement"] event_name_lower
  then "Special celebration where you'll want to look your absolute best"
  else if Str.any_in ["interview"; "pitch"; "client"; "board"] event_name_lower
  then "Professional event where first impressions matter"
  else if Str.any_in ["date"; "anniversary"] event_name_lower
  then "Romantic occasion where looking great is a must"
  else if Str.any_in ["photo"; "video"; "performance"] event_name_lower
  then "You'll be photographed or on camera"
  else if Str.any_in ["party"; "gala"; "dinner"] event_name_lower
  then "Social event with many people"
  else if Str.any_in ["meeting"; "conference"; "presentation"] event_name_lower
  then "Professional gathering where you'll meet important people"
  else "Important event where looking polished matters".

(** ** The entry point *)

Definition SERVICE_DURATIONS : list (string * Z) :=
  [ ("haircut", 60); ("nails", 45); ("manicure", 30); ("pedicure", 45);
    ("massage", 90); ("facial", 60); ("waxing", 30); ("makeup", 45);
    ("spa", 120); ("default", 60) ].

(** [d.get(k, default)] *)
Fixpoint dict_get {V : Type} (d : list (string * V)) (k : string) (default : V) : V :=
  match d with
  | [] => default
  | (k', v) :: d' => if String.eqb k' k then v else dict_get d' k default
  end.

(** An item of the provider's answer.  A start or end is the parsed form of
    [dateTime] or [date]: absent, not in ISO format, a date-time with an
    offset, or a date-time without offset or a plain date (both localized
    by the code). *)
Module Raw.
Inductive time : Type :=
  | missing
  | unparseable
  | aware (d : datetime)
  | local_time (w : naive).

Record t : Type := mk {
  summary : option string;
  start : time;
  end_ : time;
  location : option string
}.
End Raw.

(** An entry of [important_events]. *)
Module Important.
Record t : Type := mk {
  name : string;
  date : string;
  time : string;
  start_dt : datetime;
  why_important : string
}.
End Important.

(** An entry of [events_on_date]. *)
Module OnDate.
Record t : Type := mk {
  name : string;
  start_time : string;
  end_time : string;
  location : string
}.
End OnDate.

(** An entry of [day_before_suggestions]. *)
Module Suggestion.
Record t : Type := mk {
  event_name : string;
  event_date : string;
  suggested_day : string;
  suggested_time : string;
  reason : string
}.
End Suggestion.

(** The [result] dictionary. *)
Module Analysis.
Record t : Type := mk {
  has_calendar : bool;
  suggested_slots : list Slot.t;
  important_events : list Important.t;
  day_before_suggestions : list Suggestion.t;
  events_on_date : list OnDate.t;
  reasoning : string;
  smart_suggestion : string
}.
End Analysis.

Definition or_default {A : Type} (o : option A) (d : A) : A :=
  match o with Some a => a | None => d end.

(** ** Suggestion Composer *)

Definition _build_smart_suggestion (analysis : Analysis.t) (service_type : string)
    (service_duration : Z) (target_date : option naive) : string :=
  if negb (Analysis.has_calendar analysis) then ""
  else
    let on_date_part :=
      match target_date, Analysis.events_on_date analysis with
      | Some _, [e] =>
          ["I see you have " ++ OnDate.name e ++ " at " ++ OnDate.start_time e ++ "."]
      | Some _, [e1; e2] =>
          ["I see from your calendar you have " ++ OnDate.name e1 ++ " at "
           ++ OnDate.start_time e1 ++ ", " ++ "and " ++ OnDate.name e2 ++ " at "
           ++ OnDate.start_time e2 ++ "."]
      | Some _, (first :: _ :: _ :: _) as events =>
          ["I see you have " ++ Str.of_nat (List.length events)
           ++ " events that day, starting with " ++ OnDate.name first ++ " at "
           ++ OnDate.start_time first ++ "."]
      | _, _ => []
      end%string in
    let slots_part :=
      match Analysis.suggested_slots analysis with
      | [] => []
      | slot :: _ =>
          match Slot.type slot with
          | Slot.between_events =>
              ["How about between your appointments? " ++ Slot.start_time slot
               ++ " to " ++ Slot.end_time slot ++ " "
               ++ "would give you enough time for your " ++ service_type
               ++ " with buffer time to spare!"]
          | Slot.free_day =>
              ["Your calendar is free that day! I'd suggest late morning or early afternoon "
               ++ "when you have plenty of time to enjoy your " ++ service_type ++ "."]
          | _ =>
              ["I'd suggest around " ++ Slot.start_time slot ++ " - "
               ++ Str.lower (Slot.note slot) ++ "."]
          end
      end%string in
    let day_before_part :=
      match Analysis.day_before_suggestions analysis with
      | [] => []
      | important :: _ =>
          let suggested_time := Suggestion.suggested_time important in
          ["

ðŸ’¡ I noticed you have " ++ Suggestion.event_name important ++ " on "
           ++ Suggestion.event_date important ++ "! "
           ++ "How about getting your " ++ service_type
           ++ " done the day before on " ++ Suggestion.suggested_day important
           ++ " around " ++ suggested_time ++ "? "
           ++ "That way you'll look fresh and have plenty of time to get ready for your big event!"]
      end%string in
    Str.join " " (on_date_part ++ slots_part ++ day_before_part).

(** ** [analyze_calendar_for_smart_suggestions] *)

Section Analyze.

Variable tz : tzinfo.

(** The calendar provider: the items it lists for [timeMin, timeMax]. *)
Variable provider : datetime -> datetime -> list Raw.t.

Definition buffer_time : Z := 30.

(** Lines 199-207: the range the events are fetched for. *)
Definition date_range (target_date : option naive) (now : datetime)
  : datetime * datetime :=
  match target_date with
  | Some target_date =>
      let start_date := localize tz (naive_replace_hms target_date 0 0 0) in
      (start_date, add start_date (days 1))
  | None =>
      let start_date :=
        mk_datetime (DT.date now * usec_per_day) (utcoffset now) in
      (start_date, add start_date (days 7))
  end.

(** Lines 236-254: [None] when the [try] block raises. *)
Definition parse_time (r : Raw.time) : option datetime :=
  match r with
  | Raw.missing => None
  | Raw.unparseable => None
  | Raw.aware d => Some d
  | Raw.local_time w => Some (localize tz w)
  end.

(** One turn of the loop over the fetched events (lines 227-282), on the
    pair [(processed_events, important_events)]. *)
Definition process_event (now : datetime)
    (acc : list Event.t * list Important.t) (event : Raw.t)
  : list Event.t * list Important.t :=
  let event_name := or_default (Raw.summary event) "Busy" in
  match Raw.start event with
  | Raw.missing => acc
  | _ =>
      match parse_time (Raw.start event), parse_time (Raw.end_ event) with
      | Some start_dt, Some end_dt =>
          if lt end_dt now then acc
          else
            let processed_events :=
              fst acc ++ [Event.mk event_name start_dt end_dt
                            (or_default (Raw.location event) "")] in
            let event_name_lower := Str.lower event_name in
            let is_important :=
              Str.any_in IMPORTANT_EVENT_KEYWORDS event_name_lower in
            if is_important
            then (processed_events,
                  snd acc ++ [Important.mk event_name (strftime_ABd start_dt)
                                (strftime_IMp start_dt) start_dt
                                (_get_importance_reason event_name_lower)])
            else (processed_events, snd acc)
      | _, _ => acc
      end
  end.

Definition process_events (now : datetime) (events : list Raw.t)
  : list Event.t * list Important.t :=
  fold_left (process_event now) events ([], []).

(** The dictionary appended for one important event (lines 321-343). *)
Definition suggestion_for (service_type : string) (processed_events : list Event.t)
    (total_time_needed : Z) (now : datetime) (important_event : Important.t)
  : Suggestion.t :=
  let event_start := Important.start_dt important_event in
  let day_before := add event_start (- days 1) in
  let day_before_events :=
    sort_by (fun e => instant (Event.start e))
      (filter (fun e => DT.date (Event.start e) =? DT.date day_before)
              processed_events) in
  let suggested_time :=
    _find_best_slot_for_day tz day_before day_before_events total_time_needed
      buffer_time now in
  Suggestion.mk (Important.name important_event)
    (Important.date important_event)
    (strftime_ABd day_before)
    suggested_time
    ("Get your " ++ service_type ++ " done before "
     ++ Important.name important_event ++ " so you look your best!")%string.

(** One turn of the loop over [important_events] (lines 310-343). *)
Definition day_before_step (service_type : string) (processed_events : list Event.t)
    (total_time_needed : Z) (now : datetime)
    (suggestions : list Suggestion.t) (important_event : Important.t)
  : list Suggestion.t :=
  let event_start := Important.start_dt important_event in
  if DT.sub event_start now <? hours 24 then suggestions
  else suggestions
       ++ [suggestion_for service_type processed_events total_time_needed now
             important_event].

(** [has_token]: the user exists and has a Google access token.  [now] is
    the clock read at line 197, [now_slots] the one read inside
    [_find_available_slots]. *)
Definition analyze_calendar_for_smart_suggestions (has_token : bool)
    (service_type : string) (target_date : option naive)
    (now now_slots : datetime) : Analysis.t :=
  if negb has_token
  then Analysis.mk false [] [] [] []
         "User has not connected their Google Calendar" ""
  else
    let service_duration :=
      dict_get SERVICE_DURATIONS (Str.lower service_type)
        (dict_get SERVICE_DURATIONS "default" 0) in
    let total_time_needed := service_duration + buffer_time * 2 in
    let '(start_date, end_date) := date_range target_date now in
    let events := provider start_date end_date in
    let '(processed_events, important_events) := process_events now events in
    let events_on_date :=
      match target_date with
      | Some _ =>
          map (fun e => OnDate.mk (Event.name e) (strftime_IMp (Event.start e))
                          (strftime_IMp (Event.end_ e)) (Event.location e))
              processed_events
      | None => []
      end in
    let available_slots :=
      _find_available_slots tz processed_events target_date total_time_needed
        buffer_time now_slots in
    let day_before_suggestions :=
      fold_left (day_before_step service_type processed_events total_time_needed now)
        important_events [] in
    let result :=
      Analysis.mk true available_slots important_events day_before_suggestions
        events_on_date "" "" in
    Analysis.mk true available_slots important_events day_before_suggestions
      events_on_date ""
      (_build_smart_suggestion result service_type service_duration target_date).

End Analyze.

(** ** Capability-based importance detector *)

(** Exceptions of the [try] block: a computation returns or raises. *)
Module Exc.
Inductive t (A : Type) : Type :=
  | ok (a : A)
  | raised.
Arguments ok {A} a.
Arguments raised {A}.

Definition bind {A B : Type} (c : t A) (k : A -> t B) : t B :=
  match c with
  | ok a => k a
  | raised => raised
  end.

(** [try: body except Exception: handler] *)
Definition try_except {A : Type} (body : t A) (handler : t A) : t A :=
  match body with
  | ok a => ok a
  | raised => handler
  end.

(** [l[i]], an [IndexError] out of range. *)
Definition index {A : Type} (l : list A) (i : nat) : t A :=
  match nth_error l i with
  | Some a => ok a
  | None => raised
  end.

Definition of_option {A : Type} (o : option A) : t A :=
  match o with
  | Some a => ok a
  | None => raised
  end.
End Exc.

Notation "x <- c ;; k" := (Exc.bind c (fun x => k))
  (at level 61, c at next level, right associativity).

(** What [json.loads] returns. *)
Module Json.
#[local] Unset Elimination Schemes.
Inductive t : Type :=
  | null
  | boolean (b : bool)
  | number (n : Z)
  | text (s : string)
  | array (l : list t)
  | object (l : list (string * t)).
End Json.

(** An entry of the detector's [events] argument: [name] is read with
    [e['name']], [date] and [time] with [e.get]. *)
Module Upcoming.
Record t : Type := mk {
  name : string;
  date : option string;
  time : option string
}.
End Upcoming.

Section Detector.

(** [json.loads]: [None] when it raises on its argument. *)
Variable json_loads : string -> option Json.t.

Definition dq : string := String (ascii_of_nat 34) EmptyString.
Definition fence : string := "```".
Definition fence_json : string := "```json".

(** The lines of [event_list]: one per event of [events[:10]]. *)
Definition event_lines (events : list Upcoming.t) : list string :=
  map (fun e => "- " ++ Upcoming.name e ++ " on "
                ++ or_default (Upcoming.date e) "unknown date" ++ " at "
                ++ or_default (Upcoming.time e) "unknown time")%string
      (firstn 10 events).

Definition prompt_of (events : list Upcoming.t) : string :=
  ("Analyze these upcoming calendar events and identify which ones are "
   ++ dq ++ "important appearance events" ++ dq ++ "
where the person would want to look their best (get a haircut, nails done, etc. beforehand).

Events:
" ++ Str.join "
" (event_lines events) ++ "

For each important event, return a JSON array with objects containing:
- " ++ dq ++ "name" ++ dq ++ ": the event name
- " ++ dq ++ "importance_score" ++ dq ++ ": 1-10 (10 = most important to look good)
- " ++ dq ++ "reason" ++ dq ++ ": why this event matters for appearance

Consider events like:
- Weddings, parties, galas (9-10)
- Client meetings, interviews, presentations (8-9)
- Dates, romantic dinners (8-9)
- Photo shoots, videos, performances (9-10)
- Family gatherings, reunions (7-8)
- Regular work meetings (5-6)

Return ONLY the JSON array, no other text. If no important events, return [].
Example: [{" ++ dq ++ "name" ++ dq ++ ": " ++ dq ++ "Wedding" ++ dq ++ ", "
   ++ dq ++ "importance_score" ++ dq ++ ": 10, " ++ dq ++ "reason" ++ dq ++ ": "
   ++ dq ++ "Special celebration where looking your best matters" ++ dq ++ "}]")%string.

(** Lines 634-637: the text handed to [json.loads]. *)
Definition unfence (result_text : string) : Exc.t string :=
  if Str.contains fence_json result_text then
    after <- Exc.index (Str.split fence_json result_text) 1 ;;
    inner <- Exc.index (Str.split fence after) 0 ;;
    Exc.ok (Str.strip inner)
  else if Str.contains fence result_text then
    after <- Exc.index (Str.split fence result_text) 1 ;;
    inner <- Exc.index (Str.split fence after) 0 ;;
    Exc.ok (Str.strip inner)
  else Exc.ok result_text.

(** The body of the [try] block.  [llm prompt] is the [content] of the
    answer, or raises. *)
Definition detect_body (llm : string -> Exc.t string) (prompt : string)
  : Exc.t Json.t :=
  content <- llm prompt ;;
  let result_text := Str.strip content in
  result_text <- unfence result_text ;;
  important_events <- Exc.of_option (json_loads result_text) ;;
  Exc.ok important_events.

Definition detect_important_events_with_llm (events : list Upcoming.t)
    (llm : option (string -> Exc.t string)) : Exc.t Json.t :=
  match events, llm with
  | [], _ => Exc.ok (Json.array [])
  | _, None => Exc.ok (Json.array [])
  | _ :: _, Some llm =>
      let prompt := prompt_of events in
      Exc.try_except (detect_body llm prompt) (Exc.ok (Json.array []))
  end.

End Detector.

(** ** Inputs for the worked examples

    The reference zone outside daylight saving time (UTC-05:00), and
    Wednesday 2025-01-01 as a day number. *)

Definition eastern_standard : tzinfo := fun _ => hours (-5).
Definition jan_01_2025 : Z := 20089.

(** [h:m] on day [day], localized in the reference zone. *)
Definition local (day h m : Z) : datetime := localize eastern_standard (at_ day h m).

(** ** Predicates used in the statements *)

(** Ascending keys, the order [list.sort(key=...)] leaves. *)
Definition key_le {A : Type} (key : A -> Z) (a b : A) : Prop := key a <= key b.

(** The buffered busy period of an event: the buffer is taken off its start
    and added to its end. *)
Definition busy_period (buffer_time : Z) (e : Event.t) : datetime * datetime :=
  (add (Event.start e) (- minutes buffer_time),
   add (Event.end_ e) (minutes buffer_time)).

(** A slot and a busy period share a stretch of time. *)
Definition intersects (s : Slot.t) (p : datetime * datetime) : Prop :=
  instant (Slot.start s) < instant (snd p) /\ instant (fst p) < instant (Slot.end_ s).

(** The durations modules write as literals. *)
Ltac usec_literals :=
  change usec_per_day with 86400000000 in *;
  change usec_per_hour with 3600000000 in *;
  change usec_per_minute with 60000000 in *;
  change usec_per_second with 1000000 in *.

(** The keys events are ordered by. *)
Definition start_key (e : Event.t) : Z := instant (Event.start e).
Definition end_key (e : Event.t) : Z := instant (Event.end_ e).

(** The test of line 317, negated: the event starts 24 hours or more after
    [now]. *)
Definition a_day_ahead (now : datetime) (important_event : Important.t) : bool :=
  hours 24 <=? DT.sub (Important.start_dt important_event) now.

(** Scenario B of the specification: two events on 2025-01-01. *)
Definition scenario_b : list Event.t :=
  [ Event.mk "Standup" (local jan_01_2025 10 0) (local jan_01_2025 11 0) "";
    Event.mk "Review" (local jan_01_2025 14 0) (local jan_01_2025 15 0) "" ].

(** A stand-in for [json.loads] in the worked examples: it accepts the empty
    array only. *)
Definition loads_empty_array_only (s : string) : option Json.t :=
  if String.eqb s "[]" then Some (Json.array []) else None.

(** Line 191: the duration looked up for a service type. *)
Definition service_duration_of (service_type : string) : Z :=
  dict_get SERVICE_DURATIONS (Str.lower service_type)
    (dict_get SERVICE_DURATIONS "default" 0).

(** Line 272: the keyword test on an event name. *)
Definition is_important (event_name : string) : bool :=
  Str.any_in IMPORTANT_EVENT_KEYWORDS (Str.lower event_name).

(** An entry of [important_events] and the processed event it was made
    from. *)
Definition made_from (e : Event.t) (ie : Important.t) : Prop :=
  Important.name ie = Event.name e
  /\ Important.start_dt ie = Event.start e
  /\ Important.date ie = strftime_ABd (Event.start e)
  /\ Important.time ie = strftime_IMp (Event.start e)
  /\ Important.why_important ie = _get_importance_reason (Str.lower (Event.name e))
  /\ is_important (Event.name e) = true.

(** A text without any backtick. *)
Fixpoint no_backtick (s : string) : bool :=
  match s with
  | EmptyString => true
  | String c s' => negb (Ascii.eqb c "`"%char) && no_backtick s'
  end.

(** One slot is over when the other begins. *)
Definition slot_before (a b : Slot.t) : Prop :=
  instant (Slot.end_ a) <= instant (Slot.start b).

(** * Properties *)

(** ** Basic facts on datetimes *)

Lemma instant_add d delta : instant (add d delta) = instant d + delta.
Proof. unfold instant, add; simpl; lia. Qed.

Lemma gap_ge_spec a b n : gap_ge a b n = true <-> minutes n <= instant a - instant b.
Proof. unfold gap_ge, DT.sub. apply Z.leb_le. Qed.

(** ** Sorting *)

Section SortFacts.
Context {A : Type} (key : A -> Z).

Lemma insert_by_In x y l : In y (insert_by key x l) <-> y = x \/ In y l.
Proof.
  induction l as [|z l IH]; simpl.
  - intuition auto.
  - destruct (key x <=? key z); simpl; [intuition auto|].
    rewrite IH. intuition auto.
Qed.

Lemma sort_by_In y l : In y (sort_by key l) <-> In y l.
Proof.
  induction l as [|x l IH]; simpl; [tauto|].
  rewrite insert_by_In, IH. intuition auto.
Qed.

Lemma insert_by_sorted x l :
  StronglySorted (key_le key) l -> StronglySorted (key_le key) (insert_by key x l).
Proof.
  induction 1 as [|z l Hs IH Hall]; simpl.
  - repeat constructor.
  - destruct (key x <=? key z) eqn:E.
    + apply Z.leb_le in E. constructor; [constructor; assumption|].
      constructor; [exact E|].
      rewrite Forall_forall in Hall |- *. intros w Hw.
      specialize (Hall w Hw). unfold key_le in *. lia.
    + apply Z.leb_gt in E. constructor; [exact IH|].
      rewrite Forall_forall in Hall |- *. intros w Hw.
      apply insert_by_In in Hw. destruct Hw as [->|Hw].
      * unfold key_le. lia.
      * apply Hall, Hw.
Qed.

Lemma sort_by_sorted l : StronglySorted (key_le key) (sort_by key l).
Proof.
  induction l as [|x l IH]; simpl; [constructor|].
  apply insert_by_sorted, IH.
Qed.

End SortFacts.

Lemma last_In {A : Type} (l : list A) (x d : A) : In (last (x :: l) d) (x :: l).
Proof.
  revert x. induction l as [|y l IH]; intros x.
  - left; reflexivity.
  - right. change (last (x :: y :: l) d) with (last (y :: l) d). apply IH.
Qed.

(** ** Slot Finder: duration of the emitted slots *)

Lemma between_slots_duration target needed buffer l s :
  In s (between_slots target needed buffer l) ->
  Slot.type s = Slot.between_events /\ minutes needed <= Slot.duration s.
Proof.
  induction l as [|cur l IH]; simpl; [tauto|].
  destruct l as [|nxt l]; [simpl; tauto|].
  intros H. apply in_app_or in H. destruct H as [H|H].
  - destruct (gap_ge _ _ needed) eqn:E; [|destruct H].
    destruct H as [<-|[]]. split; [reflexivity|].
    apply gap_ge_spec in E. unfold Slot.duration, DT.sub; simpl. exact E.
  - apply IH, H.
Qed.

(** The three guarded kinds of slot are at least [total_time_needed] long. *)
Lemma guarded_slots_duration tz events target_date needed buffer now s :
  In s (_find_available_slots tz events (Some target_date) needed buffer now) ->
  Slot.type s <> Slot.free_day ->
  minutes needed <= Slot.duration s.
Proof.
  unfold _find_available_slots.
  destruct (day_events_of events (target_of tz target_date)) as [|first rest] eqn:E.
  - intros [<-|[]] Hk. exfalso; apply Hk; reflexivity.
  - intros H _. apply in_app_or in H. destruct H as [H|H].
    + destruct (gap_ge _ _ needed) eqn:G; [|destruct H].
      destruct H as [<-|[]]. apply gap_ge_spec in G.
      unfold Slot.duration, DT.sub; simpl. exact G.
    + apply in_app_or in H. destruct H as [H|H].
      * apply between_slots_duration in H. apply H.
      * destruct (gap_ge _ _ needed) eqn:G; [|destruct H].
        destruct H as [<-|[]]. apply gap_ge_spec in G.
        unfold Slot.duration, DT.sub; simpl. exact G.
Qed.

(** C1.  The free-day branch emits its slot without the test on the gap
    that the three other branches make.  With no event on the target date,
    a haircut (60 + 2 x 30 = 120 minutes) asked at 17:00 for today gets the
    single slot 05:30 PM - 07:00 PM of kind [free_day]: 90 minutes, less
    than the 120 required. *)
Theorem free_day_slot_shorter_than_required :
  let now := local jan_01_2025 17 0 in
  exists s,
    _find_available_slots eastern_standard [] (Some (days jan_01_2025)) 120 30 now = [s]
    /\ Slot.type s = Slot.free_day
    /\ Slot.start_time s = "05:30 PM" /\ Slot.end_time s = "07:00 PM"
    /\ Slot.duration s = minutes 90
    /\ Slot.duration s < minutes 120.
Proof.
  eexists. split; [vm_compute; reflexivity|].
  repeat (split; [vm_compute; reflexivity|]). vm_compute; reflexivity.
Qed.

(** C3.  Without a target date the slot finder returns no slot, whatever
    the events: the entry point's [suggested_slots] is empty although seven
    days of events were fetched. *)
Theorem no_target_date_no_slots tz provider service_type now now_slots events needed buffer :
  _find_available_slots tz events None needed buffer now_slots = []
  /\ Analysis.suggested_slots
       (analyze_calendar_for_smart_suggestions tz provider true service_type None
          now now_slots) = []
  /\ snd (date_range tz None now) = add (fst (date_range tz None now)) (days 7).
Proof.
  split; [reflexivity|]. split; [|reflexivity].
  unfold analyze_calendar_for_smart_suggestions. simpl.
  destruct (process_events tz now _) as [processed important]. reflexivity.
Qed.

(** C4.  One event 09:00 - 14:45 on the day: its busy period ends at
    15:15, the only qualifying gap is 15:15 - 19:00 and holds no preferred
    hour.  The selector answers 3:00 PM, before the start of the gap (and
    inside the busy period), where rounding up gives 3:30 PM. *)
Theorem best_slot_rounds_down_below_half_hour :
  let day := jan_01_2025 in
  let target_day := local day 18 0 in
  let now := local (day - 3) 12 0 in
  let events_on_day := [Event.mk "Workshop" (local day 9 0) (local day 14 45) ""] in
  let gaps :=
    available_gaps (best_day_start eastern_standard target_day now)
      (best_day_end eastern_standard target_day) 120
      (busy_periods_of events_on_day 30) in
  gaps = [Gap.mk (local day 15 15) (local day 19 0)]
  /\ first_preferred gaps = None
  /\ _find_best_slot_for_day eastern_standard target_day events_on_day 120 30 now
     = "3:00 PM"
  /\ Str.lstrip_zero (strftime_IMp (local day 15 30)) = "3:30 PM".
Proof.
  repeat (split; [vm_compute; reflexivity|]). vm_compute; reflexivity.
Qed.

(** C5.  At 08:45 on the target day the guard [now.hour >= business_start]
    fails, so the window keeps its start at 09:00 although now + 30 minutes
    is 09:15: the free-day slot starts at 09:00 AM. *)
Theorem window_start_ignores_now_before_nine :
  let day := jan_01_2025 in
  let now := local day 8 45 in
  let target := target_of eastern_standard (days day) in
  window_start target now = local day 9 0
  /\ add now (minutes 30) = local day 9 15
  /\ instant (window_start target now) < instant (add now (minutes 30))
  /\ map Slot.start_time
       (_find_available_slots eastern_standard [] (Some (days day)) 120 30 now)
     = ["09:00 AM"].
Proof.
  split; [vm_compute; reflexivity|].
  split; [vm_compute; reflexivity|].
  split; vm_compute; reflexivity.
Qed.

Lemma window_start_max_from_nine target now :
  wall target mod usec_per_day = 0 ->
  DT.date now <> DT.date target \/ business_start <= hour now ->
  utcoffset now = utcoffset target ->
  window_start target now
  = if DT.date now =? DT.date target
    then (if instant (replace_hm target business_start 0) <? instant (add now (minutes 30))
          then add now (minutes 30) else replace_hm target business_start 0)
    else replace_hm target business_start 0.
Proof.
  intros Hmid Hcase Hoff. unfold window_start.
  destruct (DT.date now =? DT.date target) eqn:Ed; cbn [andb]; [|reflexivity].
  apply Z.eqb_eq in Ed. destruct Hcase as [Hne|Hh]; [contradiction|].
  assert ((business_start <=? hour now) = true) as -> by (apply Z.leb_le; exact Hh).
  assert (instant (replace_hm target business_start 0) < instant (add now (minutes 30))) as Hlt.
  { unfold instant, add, replace_hm; simpl. rewrite Hoff.
    unfold hour, hour_of, DT.date, date_of, business_start, minutes, hours in *.
    usec_literals.
    assert (wall target mod 60000000 = 0) as Hm.
    { pose proof (Z.div_mod (wall target) 86400000000 ltac:(lia)) as E.
      rewrite Hmid in E. rewrite E.
      replace (86400000000 * (wall target / 86400000000) + 0)
        with ((1440 * (wall target / 86400000000)) * 60000000) by lia.
      apply Z.mod_mul. lia. }
    rewrite Hm.
    pose proof (Z.div_mod (wall now) 86400000000 ltac:(lia)) as En.
    pose proof (Z.mod_pos_bound (wall now) 86400000000 ltac:(lia)) as Bn.
    assert (9 * 3600000000 <= wall now mod 86400000000) as Hr.
    { pose proof (Z.mul_div_le (wall now mod 86400000000) 3600000000 ltac:(lia)). lia. }
    rewrite Ed in En. lia. }
  apply Z.ltb_lt in Hlt. rewrite Hlt. reflexivity.
Qed.

(** ** Slot Finder: slots against the busy periods *)

Lemma sorted_last_max {A : Type} (key : A -> Z) (x d : A) (l : list A) (e : A) :
  StronglySorted (key_le key) (x :: l) -> In e (x :: l) ->
  key e <= key (last (x :: l) d).
Proof.
  revert x e. induction l as [|y l IH]; intros x e Hs Hin.
  - destruct Hin as [<-|[]]. simpl. lia.
  - change (last (x :: y :: l) d) with (last (y :: l) d).
    inversion Hs as [|? ? Hs' Hall]; subst.
    destruct Hin as [<-|Hin].
    + rewrite Forall_forall in Hall.
      apply (Hall (last (y :: l) d)), last_In.
    + apply IH; assumption.
Qed.

Lemma between_slots_start target needed buffer l s :
  In s (between_slots target needed buffer l) ->
  exists c, In c l /\ instant (Slot.start s) = end_key c + minutes buffer.
Proof.
  induction l as [|cur l IH]; simpl; [tauto|].
  destruct l as [|nxt l]; [simpl; tauto|].
  intros H. apply in_app_or in H. destruct H as [H|H].
  - destruct (gap_ge _ _ needed); [|destruct H]. destruct H as [<-|[]].
    exists cur. split; [left; reflexivity|]. simpl. apply instant_add.
  - destruct (IH H) as [c [Hc E]]. exists c. split; [right; exact Hc|exact E].
Qed.

Lemma between_slots_avoid target needed buffer l :
  StronglySorted (key_le start_key) l ->
  StronglySorted (key_le end_key) l ->
  forall s e, In s (between_slots target needed buffer l) -> In e l ->
  ~ intersects s (busy_period buffer e).
Proof.
  induction l as [|cur l IH]; intros Hs He s e Hin Hel; [destruct Hin|].
  destruct l as [|nxt l]; [destruct Hin|].
  inversion Hs as [|? ? Hs' Hsall]; subst.
  inversion He as [|? ? He' Heall]; subst.
  rewrite Forall_forall in Hsall, Heall.
  change (between_slots target needed buffer (cur :: nxt :: l))
    with ((if gap_ge (add (Event.start nxt) (- minutes buffer))
                 (add (Event.end_ cur) (minutes buffer)) needed
           then [Slot.mk (add (Event.end_ cur) (minutes buffer))
                   (add (Event.start nxt) (- minutes buffer)) (strftime_ABd target)
                   Slot.between_events
                   ("Between " ++ Event.name cur ++ " and " ++ Event.name nxt)%string]
           else []) ++ between_slots target needed buffer (nxt :: l)) in Hin.
  apply in_app_or in Hin. unfold intersects, busy_period. simpl fst; simpl snd.
  rewrite !instant_add. destruct Hin as [Hin|Hin].
  - destruct (gap_ge _ _ needed); [|destruct Hin]. destruct Hin as [<-|[]].
    simpl Slot.start; simpl Slot.end_. rewrite !instant_add.
    destruct Hel as [<-|Hel]; [lia|].
    assert (start_key nxt <= start_key e) as Hle.
    { destruct Hel as [<-|Hel]; [lia|].
      inversion Hs' as [|? ? _ Hn]; subst. rewrite Forall_forall in Hn.
      apply Hn, Hel. }
    unfold start_key in Hle. lia.
  - destruct Hel as [<-|Hel].
    + destruct (between_slots_start _ _ _ _ _ Hin) as [c [Hc E]].
      specialize (Heall c Hc). unfold key_le, end_key in *. lia.
    + specialize (IH Hs' He' s e Hin Hel).
      unfold intersects, busy_period in IH. simpl fst in IH; simpl snd in IH.
      rewrite !instant_add in IH. exact IH.
Qed.

Lemma day_events_of_In events target e :
  In e (day_events_of events target)
  <-> In e events /\ DT.date (Event.start e) = DT.date target.
Proof.
  unfold day_events_of. rewrite sort_by_In, filter_In, Z.eqb_eq. tauto.
Qed.

(** C2, as the code has it.  Only the events that start on the target date
    are looked at; when, in start order, they also end in order (as events
    that do not overlap do), no emitted slot meets the buffered busy period
    of any of them. *)
Theorem slots_avoid_target_day_events tz events target_date needed buffer now :
  StronglySorted (key_le end_key) (day_events_of events (target_of tz target_date)) ->
  forall s e,
    In s (_find_available_slots tz events (Some target_date) needed buffer now) ->
    In e events ->
    DT.date (Event.start e) = DT.date (target_of tz target_date) ->
    ~ intersects s (busy_period buffer e).
Proof.
  intros Hends s e Hs He Hd.
  assert (In e (day_events_of events (target_of tz target_date))) as Hin
    by (apply day_events_of_In; split; assumption).
  assert (StronglySorted (key_le start_key)
            (day_events_of events (target_of tz target_date))) as Hstarts
    by (unfold day_events_of; apply sort_by_sorted).
  unfold _find_available_slots in Hs.
  destruct (day_events_of events (target_of tz target_date)) as [|first rest] eqn:E;
    [destruct Hin|].
  apply in_app_or in Hs. destruct Hs as [Hs|Hs].
  - destruct (gap_ge _ _ needed); [|destruct Hs]. destruct Hs as [<-|[]].
    unfold intersects, busy_period. cbn [Slot.start Slot.end_ fst snd].
      rewrite !instant_add.
    assert (start_key first <= start_key e) as Hle.
    { destruct Hin as [<-|Hin]; [lia|].
      inversion Hstarts as [|? ? _ Hall]; subst. rewrite Forall_forall in Hall.
      apply Hall, Hin. }
    unfold start_key in Hle. lia.
  - apply in_app_or in Hs. destruct Hs as [Hs|Hs].
    + apply (between_slots_avoid _ _ _ _ Hstarts Hends s e Hs Hin).
    + destruct (gap_ge _ _ needed); [|destruct Hs]. destruct Hs as [<-|[]].
      unfold intersects, busy_period. cbn [Slot.start Slot.end_ fst snd].
      rewrite !instant_add.
      pose proof (sorted_last_max end_key first first rest e Hends Hin) as Hle.
      unfold last_of, end_key in *. lia.
Qed.

Lemma slots_avoid_target_day_events_witness :
  ~ intersects
      (Slot.mk (local jan_01_2025 11 30) (local jan_01_2025 13 30)
         "Wednesday, January 01" Slot.between_events "Between Standup and Review")
      (busy_period 30 (Event.mk "Standup" (local jan_01_2025 10 0)
                         (local jan_01_2025 11 0) "")).
Proof.
  apply (slots_avoid_target_day_events eastern_standard scenario_b
           (days jan_01_2025) 120 30 (local (jan_01_2025 - 3) 12 0)).
  - vm_compute. repeat (constructor || (intro; discriminate)).
  - vm_compute. left. reflexivity.
  - left. reflexivity.
  - vm_compute. reflexivity.
Defined.

(** C2, as stated, fails: an event that starts at 23:00 the day before and
    ends at noon on the target day is not among the target day's events, so
    the whole window 09:00 - 19:00 is offered as a free day although the
    busy period runs until 12:30. *)
Lemma slots_overlap_event_from_previous_day :
  ~ (forall tz events target_date needed buffer now s e,
        In s (_find_available_slots tz events (Some target_date) needed buffer now) ->
        In e events ->
        ~ intersects s (busy_period buffer e)).
Proof.
  intros H.
  pose (e := Event.mk "Night shift" (local (jan_01_2025 - 1) 23 0)
               (local jan_01_2025 12 0) "").
  apply (H eastern_standard [e] (days jan_01_2025) 120 30
           (local (jan_01_2025 - 3) 12 0)
           (Slot.mk (local jan_01_2025 9 0) (local jan_01_2025 19 0)
              "Wednesday, January 01" Slot.free_day
              "Your calendar is free this day!") e).
  - vm_compute. left. reflexivity.
  - left. reflexivity.
  - vm_compute. split; reflexivity.
Qed.

(** ** The loop over the fetched events *)

Section AnalyzeFacts.

Variable tz : tzinfo.

Lemma process_event_past now acc event end_dt :
  parse_time tz (Raw.end_ event) = Some end_dt ->
  instant end_dt < instant now ->
  process_event tz now acc event = acc.
Proof.
  intros Hp Hlt. unfold process_event. rewrite Hp.
  assert (lt end_dt now = true) as -> by (apply Z.ltb_lt; exact Hlt).
  destruct (Raw.start event); try reflexivity;
    destruct (parse_time tz _); reflexivity.
Qed.

Lemma process_events_skip now pre event post end_dt :
  parse_time tz (Raw.end_ event) = Some end_dt ->
  instant end_dt < instant now ->
  process_events tz now (pre ++ event :: post) = process_events tz now (pre ++ post).
Proof.
  intros Hp Hlt. unfold process_events. rewrite !fold_left_app. simpl.
  rewrite (process_event_past _ _ _ _ Hp Hlt). reflexivity.
Qed.

(** What one turn of the loop leaves in [processed_events]. *)
Lemma process_event_processed now acc event e :
  In e (fst (process_event tz now acc event)) ->
  In e (fst acc)
  \/ (parse_time tz (Raw.start event) = Some (Event.start e)
      /\ parse_time tz (Raw.end_ event) = Some (Event.end_ e)
      /\ instant now <= instant (Event.end_ e)).
Proof.
  unfold process_event.
  destruct (Raw.start event) as [| |d|w]; cbn [parse_time];
    try (intros H; left; exact H).
  all: destruct (parse_time tz (Raw.end_ event)) as [end_dt|];
    [|intros H; left; exact H].
  all: destruct (lt end_dt now) eqn:L; [intros H; left; exact H|].
  all: apply Z.ltb_ge in L.
  all: destruct (Str.any_in IMPORTANT_EVENT_KEYWORDS _); cbn [fst];
    intros H; apply in_app_or in H; destruct H as [H|[<-|[]]];
    [left; exact H | right; cbn; repeat split; exact L
    |left; exact H | right; cbn; repeat split; exact L].
Qed.

Lemma fold_process_event_processed now events acc e :
  In e (fst (fold_left (process_event tz now) events acc)) ->
  In e (fst acc)
  \/ exists event, In event events
       /\ parse_time tz (Raw.start event) = Some (Event.start e)
       /\ parse_time tz (Raw.end_ event) = Some (Event.end_ e)
       /\ instant now <= instant (Event.end_ e).
Proof.
  revert acc. induction events as [|event events IH]; intros acc H; [left; exact H|].
  simpl in H. destruct (IH _ H) as [H'|[ev [Hin Hev]]].
  - destruct (process_event_processed _ _ _ _ H') as [Ha|Hb].
    + left; exact Ha.
    + right. exists event. split; [left; reflexivity|exact Hb].
  - right. exists ev. split; [right; exact Hin|exact Hev].
Qed.

Lemma day_before_loop service_type processed needed now important acc :
  fold_left (day_before_step tz service_type processed needed now) important acc
  = acc ++ map (suggestion_for tz service_type processed needed now)
             (filter (a_day_ahead now) important).
Proof.
  revert acc. induction important as [|ie important IH]; intros acc; simpl.
  - rewrite app_nil_r. reflexivity.
  - rewrite IH. unfold day_before_step, a_day_ahead.
    destruct (DT.sub (Important.start_dt ie) now <? hours 24) eqn:E.
    + apply Z.ltb_lt in E.
      assert ((hours 24 <=? DT.sub (Important.start_dt ie) now) = false) as ->
        by (apply Z.leb_gt; exact E).
      reflexivity.
    + apply Z.ltb_ge in E.
      assert ((hours 24 <=? DT.sub (Important.start_dt ie) now) = true) as ->
        by (apply Z.leb_le; exact E).
      simpl. rewrite <- app_assoc. reflexivity.
Qed.

End AnalyzeFacts.

(** ** The entry point *)

(** C6.  The day-before suggestions are, in order, exactly one suggestion
    for each important event that starts 24 hours or more after [now]; an
    important event that starts sooner gives none.  Each suggestion carries
    the name and date of its event. *)
Theorem day_before_suggestions_24_hour_rule tz provider has_token service_type
    target_date now now_slots :
  let result :=
    analyze_calendar_for_smart_suggestions tz provider has_token service_type
      target_date now now_slots in
  exists suggestion : Important.t -> Suggestion.t,
    (forall ie, Suggestion.event_name (suggestion ie) = Important.name ie
                /\ Suggestion.event_date (suggestion ie) = Important.date ie)
    /\ Analysis.day_before_suggestions result
       = map suggestion
           (filter (fun ie => hours 24 <=? DT.sub (Important.start_dt ie) now)
                   (Analysis.important_events result)).
Proof.
  unfold analyze_calendar_for_smart_suggestions.
  destruct has_token; cbn [negb].
  - destruct (date_range tz target_date now) as [start_date end_date].
    destruct (process_events tz now (provider start_date end_date))
      as [processed important].
    cbn [Analysis.day_before_suggestions Analysis.important_events].
    eexists. split; cycle 1.
    { rewrite day_before_loop. cbn [app]. reflexivity. }
    intros ie. split; reflexivity.
  - exists (fun ie => Suggestion.mk (Important.name ie) (Important.date ie) "" "" "").
    split; [intros ie; split; reflexivity|reflexivity].
Qed.

(** C7.  An event that ended before [now] leaves no trace: with or without
    it in the provider's answer, the analysis is the same in every field
    (important events, events on the target date, slots, suggestions). *)
Theorem past_event_exclusion tz (pre post : datetime -> datetime -> list Raw.t)
    event end_dt has_token service_type target_date now now_slots :
  parse_time tz (Raw.end_ event) = Some end_dt ->
  instant end_dt < instant now ->
  analyze_calendar_for_smart_suggestions tz
    (fun time_min time_max => pre time_min time_max ++ event :: post time_min time_max)
    has_token service_type target_date now now_slots
  = analyze_calendar_for_smart_suggestions tz
      (fun time_min time_max => pre time_min time_max ++ post time_min time_max)
      has_token service_type target_date now now_slots.
Proof.
  intros Hp Hlt. unfold analyze_calendar_for_smart_suggestions.
  destruct has_token; cbn [negb]; [|reflexivity].
  destruct (date_range tz target_date now) as [start_date end_date].
  rewrite (process_events_skip tz now _ _ _ _ Hp Hlt). reflexivity.
Qed.

Lemma past_event_exclusion_witness :
  let past :=
    Raw.mk (Some "Wedding rehearsal") (Raw.local_time (at_ jan_01_2025 7 0))
      (Raw.local_time (at_ jan_01_2025 7 30)) None in
  let later :=
    Raw.mk (Some "Team Standup") (Raw.local_time (at_ jan_01_2025 10 0))
      (Raw.local_time (at_ jan_01_2025 10 30)) None in
  analyze_calendar_for_smart_suggestions eastern_standard
    (fun _ _ => [] ++ past :: [later]) true "haircut" (Some (days jan_01_2025))
    (local jan_01_2025 8 0) (local jan_01_2025 8 0)
  = analyze_calendar_for_smart_suggestions eastern_standard
      (fun _ _ => [] ++ [later]) true "haircut" (Some (days jan_01_2025))
      (local jan_01_2025 8 0) (local jan_01_2025 8 0).
Proof.
  intros past later.
  apply (past_event_exclusion eastern_standard (fun _ _ => []) (fun _ _ => [later])
           past (local jan_01_2025 7 30)).
  - reflexivity.
  - vm_compute. reflexivity.
Defined.

(** Every processed event comes from a fetched item and has not ended. *)
Lemma processed_events_future tz now events e :
  In e (fst (process_events tz now events)) ->
  instant now <= instant (Event.end_ e)
  /\ exists event, In event events
       /\ parse_time tz (Raw.start event) = Some (Event.start e).
Proof.
  intros H. apply fold_process_event_processed in H.
  destruct H as [[]|[event [Hin [Hs [_ Hn]]]]].
  split; [exact Hn|]. exists event. split; assumption.
Qed.

(** C10.  With a target date the events are fetched for that date's
    midnight and the 24 hours after it; and when no fetched item starts on
    the day before an important event, the suggestion made for that event
    names the default time. *)
Theorem day_before_default_when_day_not_fetched tz provider service_type
    target_date needed now important_event :
  let range := date_range tz (Some target_date) now in
  let fetched := provider (fst range) (snd range) in
  (forall event start_dt,
      In event fetched -> parse_time tz (Raw.start event) = Some start_dt ->
      DT.date start_dt
      <> DT.date (add (Important.start_dt important_event) (- days 1))) ->
  range = (target_of tz target_date, add (target_of tz target_date) (days 1))
  /\ Suggestion.suggested_time
       (suggestion_for tz service_type (fst (process_events tz now fetched))
          needed now important_event)
     = "11:00 AM".
Proof.
  intros range fetched Hnone. split; [reflexivity|].
  unfold suggestion_for. cbn [Suggestion.suggested_time].
  set (day_before := add (Important.start_dt important_event) (- days 1)) in *.
  assert (filter (fun e => DT.date (Event.start e) =? DT.date day_before)
            (fst (process_events tz now fetched)) = []) as ->.
  { destruct (filter _ _) as [|e rest] eqn:E; [reflexivity|exfalso].
    assert (In e (e :: rest)) as Hin by (left; reflexivity).
    rewrite <- E in Hin. apply filter_In in Hin. destruct Hin as [Hin Hd].
    apply Z.eqb_eq in Hd. apply processed_events_future in Hin.
    destruct Hin as [_ [event [Hev Hs]]].
    apply (Hnone event (Event.start e) Hev Hs Hd). }
  reflexivity.
Qed.

Lemma day_before_default_when_day_not_fetched_witness :
  let wedding :=
    Important.mk "Wedding" "Saturday, January 04" "06:00 PM"
      (local (jan_01_2025 + 3) 18 0)
      "Special celebration where you'll want to look your absolute best" in
  let provider := fun _ _ : datetime =>
    [Raw.mk (Some "Wedding") (Raw.local_time (at_ (jan_01_2025 + 3) 18 0))
       (Raw.local_time (at_ (jan_01_2025 + 3) 22 0)) None] in
  let range := date_range eastern_standard (Some (days (jan_01_2025 + 3)))
                 (local jan_01_2025 8 0) in
  range = (target_of eastern_standard (days (jan_01_2025 + 3)),
           add (target_of eastern_standard (days (jan_01_2025 + 3))) (days 1))
  /\ Suggestion.suggested_time
       (suggestion_for eastern_standard "haircut"
          (fst (process_events eastern_standard (local jan_01_2025 8 0)
                  (provider (fst range) (snd range))))
          120 (local jan_01_2025 8 0) wedding)
     = "11:00 AM".
Proof.
  intros wedding provider range.
  apply (day_before_default_when_day_not_fetched eastern_standard provider "haircut"
           (days (jan_01_2025 + 3)) 120 (local jan_01_2025 8 0) wedding).
  intros event start_dt [<-|[]] Hs. injection Hs as <-.
  vm_compute. discriminate.
Defined.

(** ** Capability-based detector *)

Lemma event_lines_length events : (List.length (event_lines events) <= 10)%nat.
Proof.
  unfold event_lines. rewrite length_map. apply firstn_le_length.
Qed.

Lemma event_lines_firstn events : event_lines (firstn 10 events) = event_lines events.
Proof.
  unfold event_lines. rewrite firstn_firstn. reflexivity.
Qed.

(** C8.  The detector always returns: the empty list when there is no event
    or no capability, when the capability raises, and when [json.loads]
    rejects the text left after the fence is taken off; and the prompt is
    made of the first ten events only. *)
Theorem detector_never_propagates json_loads events llm :
  (exists v, detect_important_events_with_llm json_loads events llm = Exc.ok v)
  /\ (events = [] \/ llm = None ->
      detect_important_events_with_llm json_loads events llm = Exc.ok (Json.array []))
  /\ (forall capability,
        llm = Some capability -> capability (prompt_of events) = Exc.raised ->
        detect_important_events_with_llm json_loads events llm = Exc.ok (Json.array []))
  /\ (forall capability content,
        llm = Some capability -> capability (prompt_of events) = Exc.ok content ->
        (forall text, unfence (Str.strip content) = Exc.ok text ->
                      json_loads text = None) ->
        detect_important_events_with_llm json_loads events llm = Exc.ok (Json.array []))
  /\ (List.length (event_lines events) <= 10)%nat
  /\ prompt_of (firstn 10 events) = prompt_of events.
Proof.
  repeat split.
  - destruct events as [|e events]; [eexists; reflexivity|].
    destruct llm as [capability|]; [|eexists; reflexivity].
    cbn [detect_important_events_with_llm].
    destruct (detect_body json_loads capability _); eexists; reflexivity.
  - intros [->| ->]; [reflexivity|]. destruct events; reflexivity.
  - intros capability -> Hr. destruct events as [|e events]; [reflexivity|].
    cbn [detect_important_events_with_llm]. unfold detect_body. rewrite Hr.
    reflexivity.
  - intros capability content -> Hc Hbad.
    destruct events as [|e events]; [reflexivity|].
    cbn [detect_important_events_with_llm]. unfold detect_body. rewrite Hc.
    cbn [Exc.bind].
    destruct (unfence (Str.strip content)) as [text|] eqn:U; [|reflexivity].
    cbn [Exc.bind]. rewrite (Hbad text eq_refl). reflexivity.
  - apply event_lines_length.
  - unfold prompt_of. rewrite event_lines_firstn. reflexivity.
Qed.

Lemma detector_never_propagates_witness :
  detect_important_events_with_llm loads_empty_array_only
    [Upcoming.mk "Wedding" None None] (Some (fun _ => Exc.ok "not json"))
  = Exc.ok (Json.array []).
Proof.
  apply (proj1 (proj2 (proj2 (proj2
           (detector_never_propagates loads_empty_array_only
              [Upcoming.mk "Wedding" None None]
              (Some (fun _ => Exc.ok "not json"))))))
           (fun _ => Exc.ok "not json") "not json").
  - reflexivity.
  - reflexivity.
  - intros text H. vm_compute in H. injection H as <-. reflexivity.
Defined.

(** ** Best-Slot Selector and Suggestion Composer without availability *)

(** C9, as stated, fails: with calendar access and nothing to report the
    composer joins no part and returns the empty string. *)
Lemma composer_returns_empty_string :
  ~ (forall analysis service_type service_duration target_date,
        Analysis.has_calendar analysis = true ->
        Analysis.suggested_slots analysis = [] ->
        Analysis.events_on_date analysis = [] ->
        Analysis.day_before_suggestions analysis = [] ->
        _build_smart_suggestion analysis service_type service_duration target_date
        <> "").
Proof.
  intros H.
  apply (H (Analysis.mk true [] [] [] [] "" "") "haircut" 60 None); reflexivity.
Qed.

(** C9, as the code has it.  When a day has events and no gap qualifies the
    selector returns the string "No available time"; the composer has no
    message for that case and, with calendar access and no slot, no event on
    the target date and no day-before suggestion, returns the empty
    string. *)
Theorem no_availability_sentinel_and_empty_text tz target_day events_on_day
    needed buffer now analysis service_type service_duration target_date :
  events_on_day <> [] ->
  available_gaps (best_day_start tz target_day now) (best_day_end tz target_day)
    needed (busy_periods_of events_on_day buffer) = [] ->
  Analysis.has_calendar analysis = true ->
  Analysis.suggested_slots analysis = [] ->
  Analysis.events_on_date analysis = [] ->
  Analysis.day_before_suggestions analysis = [] ->
  _find_best_slot_for_day tz target_day events_on_day needed buffer now
  = "No available time"
  /\ _build_smart_suggestion analysis service_type service_duration target_date = "".
Proof.
  intros Hne Hgaps Hcal Hslots Hon Hday. split.
  - unfold _find_best_slot_for_day.
    destruct events_on_day as [|e rest]; [contradiction|].
    rewrite Hgaps. reflexivity.
  - unfold _build_smart_suggestion. rewrite Hcal, Hslots, Hon, Hday.
    destruct target_date; reflexivity.
Qed.

Lemma no_availability_sentinel_and_empty_text_witness :
  _find_best_slot_for_day eastern_standard (local jan_01_2025 18 0)
    [Event.mk "Offsite" (local jan_01_2025 9 0) (local jan_01_2025 18 45) ""]
    120 30 (local (jan_01_2025 - 3) 12 0)
  = "No available time"
  /\ _build_smart_suggestion (Analysis.mk true [] [] [] [] "" "") "haircut" 60
       (Some (days jan_01_2025))
     = "".
Proof.
  apply no_availability_sentinel_and_empty_text.
  - discriminate.
  - vm_compute. reflexivity.
  - reflexivity.
  - reflexivity.
  - reflexivity.
  - reflexivity.
Defined.

(** * Further properties of the module *)

(** ** Slot Finder *)

(** Every slot the finder emits is either the free-day slot or at least
    [total_time_needed] minutes long: the three kinds cut out around events
    are all tested against the required time. *)
Theorem slots_long_enough_unless_free_day tz events target_date needed buffer now :
  Forall (fun s => Slot.type s = Slot.free_day \/ minutes needed <= Slot.duration s)
    (_find_available_slots tz events target_date needed buffer now).
Proof.
  destruct target_date as [target_date|]; [|constructor].
  apply Forall_forall. intros s Hs.
  destruct (Slot.type s) eqn:K; [right|right|right|left; reflexivity];
    apply (guarded_slots_duration _ _ _ _ _ _ _ Hs); rewrite K; discriminate.
Qed.

Lemma window_start_max_from_nine_witness :
  let target := target_of eastern_standard (days jan_01_2025) in
  let now := local jan_01_2025 17 0 in
  window_start target now
  = if DT.date now =? DT.date target
    then (if instant (replace_hm target business_start 0) <? instant (add now (minutes 30))
          then add now (minutes 30) else replace_hm target business_start 0)
    else replace_hm target business_start 0.
Proof.
  intros target now. apply window_start_max_from_nine.
  - vm_compute. reflexivity.
  - right. vm_compute. discriminate.
  - reflexivity.
Defined.

Lemma between_slots_count target needed buffer l :
  (List.length (between_slots target needed buffer l) <= Nat.pred (List.length l))%nat.
Proof.
  induction l as [|cur l IH]; [simpl; lia|].
  destruct l as [|nxt l]; [simpl; lia|].
  change (between_slots target needed buffer (cur :: nxt :: l))
    with ((if gap_ge (add (Event.start nxt) (- minutes buffer))
                 (add (Event.end_ cur) (minutes buffer)) needed
           then [Slot.mk (add (Event.end_ cur) (minutes buffer))
                   (add (Event.start nxt) (- minutes buffer)) (strftime_ABd target)
                   Slot.between_events
                   ("Between " ++ Event.name cur ++ " and " ++ Event.name nxt)%string]
           else []) ++ between_slots target needed buffer (nxt :: l)).
  rewrite length_app. cbn [List.length Nat.pred] in *.
  destruct (gap_ge _ _ needed); cbn [List.length]; lia.
Qed.

Lemma between_slots_kind target needed buffer l :
  Forall (fun s => Slot.type s = Slot.between_events)
         (between_slots target needed buffer l).
Proof.
  apply Forall_forall. intros s H.
  apply (between_slots_duration _ _ _ _ _ H).
Qed.

(** A free-day slot is what the finder returns exactly when no event starts
    on the target date, and it is then the only slot, from the window start
    to 19:00; otherwise no slot is of kind [free_day] and there are at most
    as many slots as target-day events plus one. *)
Theorem free_day_exactly_without_day_events tz events target_date needed buffer now :
  let target := target_of tz target_date in
  let slots := _find_available_slots tz events (Some target_date) needed buffer now in
  match day_events_of events target with
  | [] =>
      slots = [Slot.mk (window_start target now) (replace_hm target business_end 0)
                 (strftime_ABd target) Slot.free_day
                 "Your calendar is free this day!"]
  | (_ :: _) as day_events =>
      Forall (fun s => Slot.type s <> Slot.free_day) slots
      /\ (List.length slots <= List.length day_events + 1)%nat
  end.
Proof.
  intros target slots. unfold slots, _find_available_slots. fold target.
  destruct (day_events_of events target) as [|first rest]; [reflexivity|].
  split.
  - apply Forall_app. split; [|apply Forall_app; split].
    + destruct (gap_ge _ _ needed); repeat constructor. discriminate.
    + eapply Forall_impl; [|apply between_slots_kind].
      intros s ->. discriminate.
    + destruct (gap_ge _ _ needed); repeat constructor. discriminate.
  - rewrite !length_app.
    pose proof (between_slots_count target needed buffer (first :: rest)) as Hb.
    cbn [List.length Nat.pred] in *.
    destruct (gap_ge _ _ needed), (gap_ge _ _ needed); cbn [List.length]; lia.
Qed.

(** ** Service durations *)

Lemma dict_get_range (d : list (string * Z)) k default lo hi :
  Forall (fun kv => lo <= snd kv <= hi) d -> lo <= default <= hi ->
  lo <= dict_get d k default <= hi.
Proof.
  intros Hd Hdef. induction Hd as [|[k' v] d Hv _ IH]; [exact Hdef|].
  simpl. destruct (String.eqb k' k); [exact Hv|exact IH].
Qed.

Lemma service_duration_range service_type :
  30 <= service_duration_of service_type <= 120.
Proof.
  unfold service_duration_of. apply dict_get_range.
  - unfold SERVICE_DURATIONS. repeat constructor; simpl; lia.
  - vm_compute. split; discriminate.
Qed.

(** Whatever the service type, known or not, the duration used is between
    30 and 120 minutes, so that the time required with both buffers is
    between 90 and 180 minutes. *)
Theorem service_duration_bounds service_type :
  30 <= service_duration_of service_type <= 120
  /\ 90 <= service_duration_of service_type + buffer_time * 2 <= 180.
Proof.
  pose proof (service_duration_range service_type) as H.
  split; [exact H|]. unfold buffer_time. lia.
Qed.

Lemma free_day_window_length target :
  DT.sub (replace_hm target business_end 0) (replace_hm target business_start 0)
  = minutes 600.
Proof.
  unfold DT.sub, instant, replace_hm, business_end, business_start, hours, minutes.
  cbn [wall utcoffset]. usec_literals. lia.
Qed.

(** For a target date other than the day of the call, every slot the entry
    point returns - the free-day slot included - lasts at least the time
    required for the service with its two buffers, whatever the service
    type. *)
Theorem slots_fit_service_on_another_day tz provider service_type target_date
    now now_slots :
  DT.date now_slots <> DT.date (target_of tz target_date) ->
  Forall (fun s => minutes (service_duration_of service_type + buffer_time * 2)
                   <= Slot.duration s)
    (Analysis.suggested_slots
       (analyze_calendar_for_smart_suggestions tz provider true service_type
          (Some target_date) now now_slots)).
Proof.
  intros Hday. unfold analyze_calendar_for_smart_suggestions. cbn [negb].
  destruct (date_range tz (Some target_date) now) as [start_date end_date].
  destruct (process_events tz now (provider start_date end_date))
    as [processed important].
  cbn [Analysis.suggested_slots]. fold (service_duration_of service_type).
  apply Forall_forall. intros s Hs.
  destruct (Slot.type s) eqn:K;
    try (apply (guarded_slots_duration _ _ _ _ _ _ _ Hs); rewrite K; discriminate).
  unfold _find_available_slots in Hs.
  destruct (day_events_of processed (target_of tz target_date)) as [|first rest].
  - destruct Hs as [<-|[]].
    unfold Slot.duration, window_start. cbn [Slot.start Slot.end_].
    apply Z.eqb_neq in Hday. rewrite Hday. cbn [andb].
    rewrite free_day_window_length.
    pose proof (service_duration_range service_type) as Hb.
    unfold minutes, buffer_time. usec_literals. lia.
  - exfalso. apply in_app_or in Hs. destruct Hs as [Hs|Hs].
    + destruct (gap_ge _ _ _); [|destruct Hs]. destruct Hs as [<-|[]]. discriminate.
    + apply in_app_or in Hs. destruct Hs as [Hs|Hs].
      * apply between_slots_duration in Hs. destruct Hs as [Hk _].
        rewrite Hk in K. discriminate.
      * destruct (gap_ge _ _ _); [|destruct Hs]. destruct Hs as [<-|[]]. discriminate.
Qed.

Lemma slots_fit_service_on_another_day_witness :
  Forall (fun s => minutes (service_duration_of "Massage" + buffer_time * 2)
                   <= Slot.duration s)
    (Analysis.suggested_slots
       (analyze_calendar_for_smart_suggestions eastern_standard (fun _ _ => []) true
          "Massage" (Some (days jan_01_2025)) (local (jan_01_2025 - 3) 12 0)
          (local (jan_01_2025 - 3) 12 0))).
Proof.
  apply slots_fit_service_on_another_day. vm_compute. discriminate.
Defined.

(** ** Best-Slot Selector *)

Lemma wall_fields (w : naive) :
  w = date_of w * usec_per_day + hour_of w * usec_per_hour
      + minute_of w * usec_per_minute + w mod usec_per_minute
  /\ 0 <= hour_of w < 24 /\ 0 <= minute_of w < 60
  /\ 0 <= w mod usec_per_minute < usec_per_minute.
Proof.
  unfold date_of, hour_of, minute_of. usec_literals.
  pose proof (Z.div_mod w 86400000000 ltac:(lia)).
  pose proof (Z.mod_pos_bound w 86400000000 ltac:(lia)).
  pose proof (Z.div_mod (w mod 86400000000) 3600000000 ltac:(lia)).
  pose proof (Z.mod_pos_bound (w mod 86400000000) 3600000000 ltac:(lia)).
  pose proof (Z.div_mod w 3600000000 ltac:(lia)).
  pose proof (Z.mod_pos_bound w 3600000000 ltac:(lia)).
  pose proof (Z.div_mod (w mod 3600000000) 60000000 ltac:(lia)).
  pose proof (Z.mod_pos_bound (w mod 3600000000) 60000000 ltac:(lia)).
  pose proof (Z.div_mod w 60000000 ltac:(lia)).
  pose proof (Z.mod_pos_bound w 60000000 ltac:(lia)).
  lia.
Qed.

Lemma replace_hm_fields d h m :
  0 <= h < 24 -> 0 <= m < 60 ->
  DT.date (replace_hm d h m) = DT.date d
  /\ hour (replace_hm d h m) = h
  /\ minute (replace_hm d h m) = m.
Proof.
  intros Hh Hm. unfold DT.date, hour, minute, replace_hm. cbn [wall].
  pose proof (wall_fields (wall d)) as [_ [_ [_ Hr]]].
  unfold DT.date. set (q := date_of (wall d)) in *. clearbody q.
  set (r := wall d mod usec_per_minute) in *. clearbody r.
  unfold date_of, hour_of, minute_of, hours, minutes. usec_literals.
  set (w := q * 86400000000 + h * 3600000000 + m * 60000000 + r).
  pose proof (Z.div_mod w 86400000000 ltac:(lia)).
  pose proof (Z.mod_pos_bound w 86400000000 ltac:(lia)).
  pose proof (Z.div_mod (w mod 86400000000) 3600000000 ltac:(lia)).
  pose proof (Z.mod_pos_bound (w mod 86400000000) 3600000000 ltac:(lia)).
  pose proof (Z.div_mod w 3600000000 ltac:(lia)).
  pose proof (Z.mod_pos_bound w 3600000000 ltac:(lia)).
  pose proof (Z.div_mod (w mod 3600000000) 60000000 ltac:(lia)).
  pose proof (Z.mod_pos_bound (w mod 3600000000) 60000000 ltac:(lia)).
  subst w. repeat split; lia.
Qed.

Lemma replace_m_instant d k :
  instant (replace_m d k) = instant d + minutes (k - minute d).
Proof.
  unfold replace_m, replace_hm, instant, hour, minute, DT.date. cbn [wall utcoffset].
  pose proof (wall_fields (wall d)) as [E _].
  unfold hours, minutes in *. lia.
Qed.

Lemma between_gaps_duration needed busy g :
  In g (between_gaps needed busy) ->
  minutes needed <= instant (Gap.end_ g) - instant (Gap.start g).
Proof.
  induction busy as [|cur busy IH]; simpl; [tauto|].
  destruct busy as [|nxt busy]; [simpl; tauto|].
  intros H. apply in_app_or in H. destruct H as [H|H]; [|apply IH, H].
  destruct (gap_ge _ _ needed) eqn:E; [|destruct H].
  destruct H as [<-|[]]. apply gap_ge_spec in E. exact E.
Qed.

(** Every gap the selector keeps as a candidate is at least
    [total_time_needed] minutes long. *)
Theorem available_gaps_duration day_start day_end needed busy g :
  In g (available_gaps day_start day_end needed busy) ->
  minutes needed <= instant (Gap.end_ g) - instant (Gap.start g).
Proof.
  unfold available_gaps. destruct busy as [|first rest]; [intros []|].
  intros H. apply in_app_or in H. destruct H as [H|H].
  - destruct (gt _ _); [|destruct H].
    destruct (gap_ge _ _ needed) eqn:E; [|destruct H].
    destruct H as [<-|[]]. apply gap_ge_spec in E. exact E.
  - apply in_app_or in H. destruct H as [H|H].
    + apply (between_gaps_duration _ _ _ H).
    + destruct (lt _ _); [|destruct H].
      destruct (gap_ge _ _ needed) eqn:E; [|destruct H].
      destruct H as [<-|[]]. apply gap_ge_spec in E. exact E.
Qed.

Lemma available_gaps_duration_witness :
  minutes 120
  <= instant (Gap.end_ (Gap.mk (local jan_01_2025 11 30) (local jan_01_2025 13 30)))
     - instant (Gap.start (Gap.mk (local jan_01_2025 11 30) (local jan_01_2025 13 30))).
Proof.
  apply (available_gaps_duration (local jan_01_2025 9 0) (local jan_01_2025 19 0) 120
           (busy_periods_of scenario_b 30)).
  vm_compute. left. reflexivity.
Defined.

Lemma preferred_in_inside slot hs dt :
  Forall (fun h => 0 <= h < 24) hs ->
  preferred_in slot hs = Some dt ->
  instant (Gap.start slot) <= instant dt < instant (Gap.end_ slot)
  /\ In (hour dt) hs /\ minute dt = 0
  /\ DT.date dt = DT.date (Gap.start slot).
Proof.
  induction 1 as [|h hs Hh _ IH]; simpl; [discriminate|].
  destruct ((hour (Gap.start slot) <=? h) && (h <? hour (Gap.end_ slot))
            && ge (replace_hm (Gap.start slot) h 0) (Gap.start slot)
            && lt (replace_hm (Gap.start slot) h 0) (Gap.end_ slot)) eqn:E.
  - intros [= <-]. apply andb_prop in E. destruct E as [E Hlt].
    apply andb_prop in E. destruct E as [_ Hge].
    apply Z.ltb_lt in Hlt. apply Z.leb_le in Hge.
    destruct (replace_hm_fields (Gap.start slot) h 0 Hh ltac:(lia)) as [Hd [Hhr Hm]].
    repeat split; try assumption. left. symmetry. exact Hhr.
  - intros Hp. destruct (IH Hp) as [Hb [Hin Hrest]].
    split; [exact Hb|]. split; [right; exact Hin|exact Hrest].
Qed.

(** When the selector anchors its suggestion on a preferred hour, the
    suggested time lies inside one of the qualifying gaps (at or after its
    start, before its end), on the gap's starting date, on the hour, and the
    hour is one of 10, 11, 12, 13, 14. *)
Theorem preferred_suggestion_inside_gap slots dt :
  first_preferred slots = Some dt ->
  exists slot,
    In slot slots
    /\ instant (Gap.start slot) <= instant dt < instant (Gap.end_ slot)
    /\ In (hour dt) preferred_hours /\ minute dt = 0
    /\ DT.date dt = DT.date (Gap.start slot).
Proof.
  induction slots as [|slot slots IH]; cbn [first_preferred]; [discriminate|].
  destruct (preferred_in slot preferred_hours) as [d|] eqn:E.
  - intros [= <-]. exists slot. split; [left; reflexivity|].
    apply (preferred_in_inside slot preferred_hours d); [|exact E].
    unfold preferred_hours. repeat constructor; lia.
  - intros H. destruct (IH H) as [g [Hin Hg]]. exists g.
    split; [right; exact Hin|exact Hg].
Qed.

Lemma preferred_suggestion_inside_gap_witness :
  exists slot,
    In slot [Gap.mk (local jan_01_2025 11 30) (local jan_01_2025 13 30);
             Gap.mk (local jan_01_2025 15 30) (local jan_01_2025 19 0)]
    /\ instant (Gap.start slot) <= instant (local jan_01_2025 12 0)
       < instant (Gap.end_ slot)
    /\ In (hour (local jan_01_2025 12 0)) preferred_hours
    /\ minute (local jan_01_2025 12 0) = 0
    /\ DT.date (local jan_01_2025 12 0) = DT.date (Gap.start slot).
Proof.
  apply preferred_suggestion_inside_gap. vm_compute. reflexivity.
Defined.

(** The anchor taken when no gap holds a preferred hour, as the code
    computes it: a gap start at minute [m] below 30 goes back to the full
    hour ([m] minutes earlier), minute 30 is kept, and a minute above 30
    goes forward to the next full hour; the result is on a half-hour mark of
    the wall clock. *)
Theorem round_first_slot_offset first_slot :
  let m := minute (Gap.start first_slot) in
  instant (round_first_slot first_slot) - instant (Gap.start first_slot)
  = minutes (if m <? 30 then - m else if 30 <? m then 60 - m else 0)
  /\ - minutes 30 < instant (round_first_slot first_slot) - instant (Gap.start first_slot)
     < minutes 30.
Proof.
  intros m. unfold round_first_slot. fold m.
  pose proof (wall_fields (wall (Gap.start first_slot))) as [_ [_ [Hm _]]].
  fold (minute (Gap.start first_slot)) in Hm. fold m in Hm.
  assert (instant (if 30 <? m
                   then add (replace_m (Gap.start first_slot) 0) (hours 1)
                   else replace_m (Gap.start first_slot) (if m <? 30 then 0 else 30))
          - instant (Gap.start first_slot)
          = minutes (if m <? 30 then - m else if 30 <? m then 60 - m else 0)) as E.
  { destruct (30 <? m) eqn:E1.
    - apply Z.ltb_lt in E1.
      assert ((m <? 30) = false) as -> by (apply Z.ltb_ge; lia).
      rewrite instant_add, replace_m_instant. fold m.
      unfold minutes, hours. usec_literals. lia.
    - apply Z.ltb_ge in E1. rewrite replace_m_instant. fold m.
      destruct (m <? 30) eqn:E2; unfold minutes; usec_literals.
      + lia.
      + apply Z.ltb_ge in E2. lia. }
  split; [exact E|]. rewrite E.
  destruct (m <? 30) eqn:E2; [apply Z.ltb_lt in E2|apply Z.ltb_ge in E2].
  - unfold minutes. usec_literals. lia.
  - destruct (30 <? m) eqn:E1; [apply Z.ltb_lt in E1|];
      unfold minutes; usec_literals; lia.
Qed.

(** ** Importance Classifier *)

Lemma lower_app a b : Str.lower (a ++ b) = (Str.lower a ++ Str.lower b)%string.
Proof.
  induction a as [|c a IH]; [reflexivity|]. simpl. rewrite IH. reflexivity.
Qed.

Lemma prefix_app sub s t :
  String.prefix sub s = true -> String.prefix sub (s ++ t) = true.
Proof.
  revert s. induction sub as [|a sub IH]; intros s.
  - intros _. destruct (s ++ t)%string; reflexivity.
  - destruct s as [|b s]; simpl; [discriminate|].
    destruct (ascii_dec a b); [apply IH|discriminate].
Qed.

Lemma contains_app_r sub s t :
  Str.contains sub s = true -> Str.contains sub (s ++ t) = true.
Proof.
  induction s as [|c s IH].
  - cbn [Str.contains]. destruct sub; [intros _|discriminate].
    destruct t; reflexivity.
  - cbn [Str.contains].
    destruct (String.prefix sub (String c s)) eqn:P.
    + intros _. change (String c s ++ t)%string with (String c (s ++ t)).
      cbn [Str.contains].
      change (String c (s ++ t)) with (String c s ++ t)%string.
      rewrite (prefix_app _ _ t P). reflexivity.
    + intros H. change (String c s ++ t)%string with (String c (s ++ t)).
      cbn [Str.contains]. rewrite (IH H).
      destruct (String.prefix sub (String c (s ++ t))); reflexivity.
Qed.

Lemma contains_app_l sub p s :
  Str.contains sub s = true -> Str.contains sub (p ++ s) = true.
Proof.
  intros H. induction p as [|c p IH]; [exact H|].
  change (String c p ++ s)%string with (String c (p ++ s)).
  cbn [Str.contains]. rewrite IH.
  destruct (String.prefix sub (String c (p ++ s))); reflexivity.
Qed.

(** The keyword test is a substring test on the lower-cased name: a name
    that is flagged stays flagged when it appears inside a longer title. *)
Theorem important_inside_longer_title before event_name after :
  is_important event_name = true ->
  is_important (before ++ event_name ++ after) = true.
Proof.
  unfold is_important, Str.any_in. rewrite !existsb_exists.
  intros [kw [Hin Hc]]. exists kw. split; [exact Hin|].
  rewrite !lower_app. apply contains_app_l, contains_app_r, Hc.
Qed.

Lemma important_inside_longer_title_witness :
  is_important ("Anna's " ++ "Wedding" ++ " (RSVP)") = true.
Proof.
  apply important_inside_longer_title. vm_compute. reflexivity.
Defined.

(** ** The loop over the fetched events *)

(** Every entry of [processed_events] comes from a fetched item whose start
    and end both parsed, and has not ended before [now]: items with a
    missing or unreadable start or end, and items already over, are left
    out. *)
Theorem processed_events_parsed_and_current tz now events e :
  In e (fst (process_events tz now events)) ->
  instant now <= instant (Event.end_ e)
  /\ exists event, In event events
       /\ parse_time tz (Raw.start event) = Some (Event.start e)
       /\ parse_time tz (Raw.end_ event) = Some (Event.end_ e).
Proof.
  intros H. apply fold_process_event_processed in H.
  destruct H as [[]|[event [Hin [Hs [He Hn]]]]].
  split; [exact Hn|]. exists event. repeat split; assumption.
Qed.

Lemma processed_events_parsed_and_current_witness :
  let standup := Event.mk "Team Standup" (local jan_01_2025 10 0)
                   (local jan_01_2025 10 30) "" in
  let fetched :=
    [Raw.mk (Some "Team Standup") (Raw.local_time (at_ jan_01_2025 10 0))
       (Raw.local_time (at_ jan_01_2025 10 30)) None] in
  instant (local jan_01_2025 8 0) <= instant (Event.end_ standup)
  /\ exists event, In event fetched
       /\ parse_time eastern_standard (Raw.start event) = Some (Event.start standup)
       /\ parse_time eastern_standard (Raw.end_ event) = Some (Event.end_ standup).
Proof.
  intros standup fetched.
  apply (processed_events_parsed_and_current eastern_standard (local jan_01_2025 8 0)
           fetched standup).
  vm_compute. left. reflexivity.
Defined.

Lemma process_event_important tz now acc event :
  (forall ie, In ie (snd acc) -> exists e, In e (fst acc) /\ made_from e ie) ->
  forall ie, In ie (snd (process_event tz now acc event)) ->
  exists e, In e (fst (process_event tz now acc event)) /\ made_from e ie.
Proof.
  intros Hacc. unfold process_event.
  destruct (Raw.start event) as [| |d|w]; cbn [parse_time]; try exact Hacc.
  all: destruct (parse_time tz (Raw.end_ event)) as [end_dt|]; [|exact Hacc].
  all: destruct (lt end_dt now); [exact Hacc|].
  all: destruct (Str.any_in IMPORTANT_EVENT_KEYWORDS _) eqn:K; cbn [fst snd];
    intros ie Hie.
  all: try (apply in_app_or in Hie; destruct Hie as [Hie|[<-|[]]]).
  all: try (destruct (Hacc ie Hie) as [e [He Hm]]; exists e;
            split; [apply in_or_app; left; exact He|exact Hm]).
  all: eexists; split; [apply in_or_app; right; left; reflexivity|];
    unfold made_from, is_important; cbn; repeat split; exact K.
Qed.

(** Every entry of [important_events] was made from a processed event: it
    carries that event's name and start, printed date and time, the reason
    of its first matching category, and the name passes the keyword test. *)
Theorem important_events_are_processed tz now events ie :
  In ie (snd (process_events tz now events)) ->
  exists e, In e (fst (process_events tz now events)) /\ made_from e ie.
Proof.
  unfold process_events.
  assert (forall acc,
             (forall ie, In ie (snd acc) -> exists e, In e (fst acc) /\ made_from e ie) ->
             forall ie, In ie (snd (fold_left (process_event tz now) events acc)) ->
             exists e, In e (fst (fold_left (process_event tz now) events acc))
                       /\ made_from e ie) as H.
  { induction events as [|event events IH]; intros acc Hacc; [exact Hacc|].
    simpl. apply IH. apply process_event_important, Hacc. }
  revert ie. apply H. intros ie [].
Qed.

Lemma important_events_are_processed_witness :
  let wedding :=
    Important.mk "Wedding" "Saturday, January 04" "06:00 PM"
      (local (jan_01_2025 + 3) 18 0)
      "Special celebration where you'll want to look your absolute best" in
  let fetched :=
    [Raw.mk (Some "Wedding") (Raw.local_time (at_ (jan_01_2025 + 3) 18 0))
       (Raw.local_time (at_ (jan_01_2025 + 3) 22 0)) None] in
  exists e,
    In e (fst (process_events eastern_standard (local jan_01_2025 8 0) fetched))
    /\ made_from e wedding.
Proof.
  intros wedding fetched. apply important_events_are_processed.
  vm_compute. left. reflexivity.
Defined.

(** ** Suggestion Composer *)

Lemma append_empty (a b : string) : (a ++ b)%string = "" -> a = "" /\ b = "".
Proof.
  destruct a; simpl; [intros ->; split; reflexivity|discriminate].
Qed.

Lemma join_empty sep parts : Str.join sep parts = "" -> Forall (eq "") parts.
Proof.
  induction parts as [|p ps IH]; [constructor|].
  destruct ps as [|q ps].
  - simpl. intros ->. repeat constructor.
  - change (Str.join sep (p :: q :: ps))
      with (p ++ sep ++ Str.join sep (q :: ps))%string.
    intros H. apply append_empty in H. destruct H as [-> H].
    apply append_empty in H. destruct H as [_ H].
    constructor; [reflexivity|apply IH, H].
Qed.

(** With calendar access, the composed text is not empty as soon as there is
    a slot to propose or a day-before suggestion to make. *)
Theorem suggestion_text_not_empty analysis service_type service_duration target_date :
  Analysis.has_calendar analysis = true ->
  Analysis.suggested_slots analysis <> []
  \/ Analysis.day_before_suggestions analysis <> [] ->
  _build_smart_suggestion analysis service_type service_duration target_date <> "".
Proof.
  intros Hcal Hsome Hempty. unfold _build_smart_suggestion in Hempty.
  rewrite Hcal in Hempty. cbn [negb] in Hempty.
  apply join_empty in Hempty.
  apply Forall_app in Hempty. destruct Hempty as [_ Hempty].
  apply Forall_app in Hempty. destruct Hempty as [Hslots Hday].
  destruct Hsome as [Hs|Hd].
  - destruct (Analysis.suggested_slots analysis) as [|slot rest]; [contradiction|].
    destruct (Slot.type slot); inversion Hslots as [|? ? Hp _]; discriminate.
  - destruct (Analysis.day_before_suggestions analysis) as [|important rest];
      [contradiction|].
    inversion Hday as [|? ? Hp _]. discriminate.
Qed.

Lemma suggestion_text_not_empty_witness :
  _build_smart_suggestion
    (Analysis.mk true
       [Slot.mk (local jan_01_2025 9 0) (local jan_01_2025 19 0)
          "Wednesday, January 01" Slot.free_day "Your calendar is free this day!"]
       [] [] [] "" "")
    "haircut" 60 (Some (days jan_01_2025))
  <> "".
Proof.
  apply suggestion_text_not_empty.
  - reflexivity.
  - left. discriminate.
Defined.

(** The composed text reads only the first slot and the first day-before
    suggestion: two analyses with calendar access that agree on these two
    and on the events of the date give the same text, whatever the later
    slots and suggestions, the important events, the reasoning and the
    service duration. *)
Theorem suggestion_text_reads_first_entries a1 a2 service_type d1 d2 target_date :
  Analysis.has_calendar a1 = Analysis.has_calendar a2 ->
  hd_error (Analysis.suggested_slots a1) = hd_error (Analysis.suggested_slots a2) ->
  hd_error (Analysis.day_before_suggestions a1)
  = hd_error (Analysis.day_before_suggestions a2) ->
  Analysis.events_on_date a1 = Analysis.events_on_date a2 ->
  _build_smart_suggestion a1 service_type d1 target_date
  = _build_smart_suggestion a2 service_type d2 target_date.
Proof.
  intros Hcal Hslot Hday Hon. unfold _build_smart_suggestion.
  rewrite Hcal, Hon.
  destruct (Analysis.suggested_slots a1) as [|s1 r1],
           (Analysis.suggested_slots a2) as [|s2 r2]; try discriminate;
    destruct (Analysis.day_before_suggestions a1) as [|b1 t1],
             (Analysis.day_before_suggestions a2) as [|b2 t2]; try discriminate;
    cbn [hd_error] in *;
    repeat match goal with
           | H : Some _ = Some _ |- _ => injection H as ->
           end;
    reflexivity.
Qed.

Lemma suggestion_text_reads_first_entries_witness :
  let morning :=
    Slot.mk (local jan_01_2025 11 30) (local jan_01_2025 13 30)
      "Wednesday, January 01" Slot.between_events "Between Standup and Review" in
  let evening :=
    Slot.mk (local jan_01_2025 15 30) (local jan_01_2025 19 0)
      "Wednesday, January 01" Slot.after_last_event "After your Review" in
  _build_smart_suggestion (Analysis.mk true [morning; evening] [] [] [] "" "")
    "haircut" 60 (Some (days jan_01_2025))
  = _build_smart_suggestion (Analysis.mk true [morning] [] [] [] "noted" "")
      "haircut" 45 (Some (days jan_01_2025)).
Proof.
  intros morning evening.
  apply suggestion_text_reads_first_entries; reflexivity.
Defined.

(** ** Capability-based detector: the Markdown fence *)

Lemma split_aux_not_nil sep skip acc s :
  exists a rest, Str.split_aux sep skip acc s = a :: rest.
Proof.
  revert skip acc. induction s as [|c s IH]; intros skip acc.
  - exists acc, []. reflexivity.
  - cbn [Str.split_aux]. destruct skip as [|k]; [|apply IH].
    destruct (String.prefix sep (String c s)); [|apply IH].
    eexists _, _. reflexivity.
Qed.

Lemma split_aux_two sep acc s :
  sep <> "" -> Str.contains sep s = true ->
  exists a b rest, Str.split_aux sep O acc s = a :: b :: rest.
Proof.
  intros Hsep. revert acc. induction s as [|c s IH]; intros acc.
  - cbn [Str.contains]. destruct sep; [contradiction|discriminate].
  - cbn [Str.contains Str.split_aux].
    destruct (String.prefix sep (String c s)).
    + intros _.
      destruct (split_aux_not_nil sep (Nat.pred (String.length sep)) "" s)
        as [b [rest E]].
      rewrite E. exists acc, b, rest. reflexivity.
    + intros H. apply IH, H.
Qed.

(** Taking the fence off never fails: whenever the text holds a fence, the
    piece after it exists, so neither index of lines 635 and 637 goes out
    of range. *)
Theorem unfence_never_raises result_text :
  exists text, unfence result_text = Exc.ok text.
Proof.
  unfold unfence.
  destruct (Str.contains fence_json result_text) eqn:J.
  - destruct (split_aux_two fence_json "" result_text ltac:(discriminate) J)
      as [a [b [rest E]]].
    unfold Str.split. rewrite E. cbn [Exc.index nth_error Exc.bind].
    destruct (split_aux_not_nil fence O "" b) as [i [r E2]].
    rewrite E2. cbn. eexists. reflexivity.
  - destruct (Str.contains fence result_text) eqn:F; [|eexists; reflexivity].
    destruct (split_aux_two fence "" result_text ltac:(discriminate) F)
      as [a [b [rest E]]].
    unfold Str.split. rewrite E. cbn [Exc.index nth_error Exc.bind].
    destruct (split_aux_not_nil fence O "" b) as [i [r E2]].
    rewrite E2. cbn. eexists. reflexivity.
Qed.

Lemma string_app_assoc (a b c : string) : ((a ++ b) ++ c = a ++ b ++ c)%string.
Proof.
  induction a as [|x a IH]; [reflexivity|]. simpl. rewrite IH. reflexivity.
Qed.

Lemma string_app_nil_r (a : string) : (a ++ "")%string = a.
Proof.
  induction a as [|x a IH]; [reflexivity|]. simpl. rewrite IH. reflexivity.
Qed.

Lemma prefix_backtick_first sep c s :
  Ascii.eqb c "`"%char = false ->
  String.prefix (String "`"%char sep) (String c s) = false.
Proof.
  intros H. cbn [String.prefix].
  destruct (ascii_dec "`"%char c) as [<-|_]; [discriminate H|reflexivity].
Qed.

Lemma split_json_fence_body body acc :
  no_backtick body = true ->
  Str.split_aux fence_json O acc (body ++ fence) = [(acc ++ body ++ fence)%string].
Proof.
  revert acc. induction body as [|c body IH]; intros acc H.
  - cbn. rewrite !string_app_assoc. reflexivity.
  - cbn [no_backtick] in H. apply andb_prop in H. destruct H as [Hc Hb].
    apply negb_true_iff in Hc.
    change (String c body ++ fence)%string with (String c (body ++ fence)).
    cbn [Str.split_aux]. unfold fence_json at 1.
    rewrite (prefix_backtick_first _ _ _ Hc).
    rewrite (IH _ Hb). rewrite string_app_assoc. reflexivity.
Qed.

Lemma split_fence_body body acc :
  no_backtick body = true ->
  Str.split_aux fence O acc (body ++ fence) = [(acc ++ body)%string; ""].
Proof.
  revert acc. induction body as [|c body IH]; intros acc H.
  - cbn. rewrite string_app_nil_r. reflexivity.
  - cbn [no_backtick] in H. apply andb_prop in H. destruct H as [Hc Hb].
    apply negb_true_iff in Hc.
    change (String c body ++ fence)%string with (String c (body ++ fence)).
    cbn [Str.split_aux]. unfold fence at 1.
    rewrite (prefix_backtick_first _ _ _ Hc).
    rewrite (IH _ Hb). rewrite string_app_assoc. reflexivity.
Qed.

Lemma prefix_self_app a x : String.prefix a (a ++ x) = true.
Proof.
  induction a as [|c a IH]; [destruct x; reflexivity|].
  cbn. destruct (ascii_dec c c) as [_|N]; [exact IH|contradiction N; reflexivity].
Qed.

Lemma unfence_json_fence body :
  no_backtick body = true ->
  unfence (fence_json ++ body ++ fence) = Exc.ok (Str.strip body).
Proof.
  intros H. unfold unfence.
  assert (Str.contains fence_json (fence_json ++ body ++ fence) = true) as ->.
  { change (fence_json ++ body ++ fence)%string
      with (String "`"%char ("``json" ++ body ++ fence)).
    cbn [Str.contains].
    change (String "`"%char ("``json" ++ body ++ fence))
      with (fence_json ++ (body ++ fence))%string.
    rewrite prefix_self_app. reflexivity. }
  assert (Str.split fence_json (fence_json ++ body ++ fence)
          = [""; (body ++ fence)%string]) as ->.
  { unfold Str.split.
    change (fence_json ++ body ++ fence)%string
      with (String "`"%char ("``json" ++ body ++ fence)).
    cbn [Str.split_aux].
    change (String "`"%char ("``json" ++ body ++ fence))
      with (fence_json ++ (body ++ fence))%string.
    rewrite prefix_self_app. cbn [String.length fence_json Nat.pred Str.split_aux append].
    rewrite (split_json_fence_body body "" H). reflexivity. }
  cbn [Exc.index nth_error Exc.bind]. unfold Str.split.
  rewrite (split_fence_body body "" H). reflexivity.
Qed.

Lemma rstrip_keeps_tail s t :
  t <> "" -> Str.rstrip t = t -> Str.rstrip (s ++ t) = (s ++ t)%string.
Proof.
  intros Hne Ht. induction s as [|c s IH]; [exact Ht|].
  change (String c s ++ t)%string with (String c (s ++ t)).
  cbn [Str.rstrip]. rewrite IH.
  destruct (s ++ t)%string as [|x r] eqn:E; [|reflexivity].
  apply append_empty in E. destruct E as [_ E]. contradiction.
Qed.

Lemma strip_json_fence body :
  Str.strip (fence_json ++ body ++ fence) = (fence_json ++ body ++ fence)%string.
Proof.
  unfold Str.strip.
  assert (Str.lstrip (fence_json ++ body ++ fence) = (fence_json ++ body ++ fence)%string)
    as -> by reflexivity.
  change (fence_json ++ body ++ fence)%string
    with (fence_json ++ (body ++ fence))%string.
  rewrite <- string_app_assoc.
  apply rstrip_keeps_tail; [discriminate|reflexivity].
Qed.

Lemma no_backtick_contains sep t :
  no_backtick t = true -> Str.contains (String "`"%char sep) t = false.
Proof.
  induction t as [|c t IH]; [reflexivity|].
  cbn [no_backtick]. intros H. apply andb_prop in H. destruct H as [Hc Ht].
  apply negb_true_iff in Hc. cbn [Str.contains].
  rewrite (prefix_backtick_first _ _ _ Hc). apply IH, Ht.
Qed.

(** The detector takes a json fence off the answer: when the capability
    answers a json-fenced body without backticks and [json.loads] accepts
    the stripped body, the detector returns the parsed value. *)
Theorem detector_returns_fenced_json json_loads e events capability body v :
  capability (prompt_of (e :: events)) = Exc.ok (fence_json ++ body ++ fence)%string ->
  no_backtick body = true ->
  json_loads (Str.strip body) = Some v ->
  detect_important_events_with_llm json_loads (e :: events) (Some capability)
  = Exc.ok v.
Proof.
  intros Hc Hb Hv. cbn [detect_important_events_with_llm]. unfold detect_body.
  rewrite Hc. cbn [Exc.bind]. rewrite strip_json_fence, (unfence_json_fence _ Hb).
  cbn [Exc.bind]. rewrite Hv. reflexivity.
Qed.

Lemma detector_returns_fenced_json_witness :
  detect_important_events_with_llm loads_empty_array_only
    [Upcoming.mk "Wedding" (Some "Saturday, January 04") None]
    (Some (fun _ => Exc.ok (fence_json ++ "
[]
" ++ fence)%string))
  = Exc.ok (Json.array []).
Proof.
  apply (detector_returns_fenced_json loads_empty_array_only _ _ _ "
[]
").
  - reflexivity.
  - reflexivity.
  - reflexivity.
Defined.

(** An answer without any backtick is handed to [json.loads] as it is, once
    stripped: the detector returns what [json.loads] makes of it, and the
    empty list when [json.loads] rejects it. *)
Theorem detector_returns_plain_json json_loads e events capability content :
  capability (prompt_of (e :: events)) = Exc.ok content ->
  no_backtick (Str.strip content) = true ->
  detect_important_events_with_llm json_loads (e :: events) (Some capability)
  = Exc.ok (or_default (json_loads (Str.strip content)) (Json.array [])).
Proof.
  intros Hc Hb. cbn [detect_important_events_with_llm]. unfold detect_body.
  rewrite Hc. cbn [Exc.bind]. unfold unfence.
  unfold fence_json, fence. rewrite !(no_backtick_contains _ _ Hb).
  cbn [Exc.bind]. destruct (json_loads (Str.strip content)); reflexivity.
Qed.

Lemma detector_returns_plain_json_witness :
  detect_important_events_with_llm loads_empty_array_only
    [Upcoming.mk "Wedding" None None] (Some (fun _ => Exc.ok " []
"))
  = Exc.ok (or_default (loads_empty_array_only (Str.strip " []
")) (Json.array [])).
Proof.
  apply detector_returns_plain_json; reflexivity.
Defined.

(** ** Slot Finder: order of the slots *)

Lemma sorted_app {A : Type} (R : A -> A -> Prop) l1 l2 :
  StronglySorted R l1 -> StronglySorted R l2 ->
  (forall a b, In a l1 -> In b l2 -> R a b) ->
  StronglySorted R (l1 ++ l2).
Proof.
  intros H1 H2 H. induction H1 as [|x l1 Hs IH Hall]; [exact H2|].
  simpl. constructor.
  - apply IH. intros a b Ha Hb. apply H; [right; exact Ha|exact Hb].
  - apply Forall_app. split; [exact Hall|].
    apply Forall_forall. intros b Hb. apply H; [left; reflexivity|exact Hb].
Qed.

Lemma between_slots_end target needed buffer l s :
  In s (between_slots target needed buffer l) ->
  exists n, In n l /\ instant (Slot.end_ s) = start_key n - minutes buffer.
Proof.
  induction l as [|cur l IH]; simpl; [tauto|].
  destruct l as [|nxt l]; [simpl; tauto|].
  intros H. apply in_app_or in H. destruct H as [H|H].
  - destruct (gap_ge _ _ needed); [|destruct H]. destruct H as [<-|[]].
    exists nxt. split; [right; left; reflexivity|].
    simpl. rewrite instant_add. unfold start_key. lia.
  - destruct (IH H) as [n [Hn E]]. exists n. split; [right; exact Hn|exact E].
Qed.

Lemma sorted_head_le {A : Type} (key : A -> Z) x l c :
  StronglySorted (key_le key) (x :: l) -> In c (x :: l) -> key x <= key c.
Proof.
  intros Hs [<-|Hc]; [lia|].
  inversion Hs as [|? ? _ Hall]; subst. rewrite Forall_forall in Hall.
  apply Hall, Hc.
Qed.

Lemma between_slots_sorted target needed buffer l :
  0 <= buffer ->
  StronglySorted (key_le end_key) l ->
  Forall (fun e => start_key e <= end_key e) l ->
  StronglySorted slot_before (between_slots target needed buffer l).
Proof.
  intros Hb He Hwf. induction l as [|cur l IH]; [constructor|].
  destruct l as [|nxt l]; [constructor|].
  inversion He as [|? ? He' _]; subst. inversion Hwf as [|? ? _ Hwf']; subst.
  specialize (IH He' Hwf').
  change (between_slots target needed buffer (cur :: nxt :: l))
    with ((if gap_ge (add (Event.start nxt) (- minutes buffer))
                 (add (Event.end_ cur) (minutes buffer)) needed
           then [Slot.mk (add (Event.end_ cur) (minutes buffer))
                   (add (Event.start nxt) (- minutes buffer)) (strftime_ABd target)
                   Slot.between_events
                   ("Between " ++ Event.name cur ++ " and " ++ Event.name nxt)%string]
           else []) ++ between_slots target needed buffer (nxt :: l)).
  destruct (gap_ge _ _ needed); [|exact IH].
  cbn [app]. constructor; [exact IH|].
  apply Forall_forall. intros s Hs.
  destruct (between_slots_start _ _ _ _ _ Hs) as [c [Hc E]].
  pose proof (sorted_head_le end_key nxt l c He' Hc) as Hle.
  inversion Hwf' as [|? ? Hn _]; subst.
  unfold slot_before. cbn [Slot.end_]. rewrite instant_add, E.
  unfold start_key, end_key, minutes in *. usec_literals. lia.
Qed.

(** When the events that start on the target date are well formed (start
    not after end), end in the order they start and the buffer is not
    negative, the slots come out in chronological order and none runs into
    the next: each ends before every later one begins. *)
Theorem slots_in_chronological_order tz events target_date needed buffer now :
  let day_events := day_events_of events (target_of tz target_date) in
  0 <= buffer ->
  StronglySorted (key_le end_key) day_events ->
  Forall (fun e => start_key e <= end_key e) day_events ->
  StronglySorted slot_before
    (_find_available_slots tz events (Some target_date) needed buffer now).
Proof.
  intros day_events Hb He Hwf. unfold _find_available_slots. fold day_events.
  destruct day_events as [|first rest] eqn:E; [repeat constructor|].
  assert (0 <= minutes buffer) as Hmb by (unfold minutes; usec_literals; lia).
  assert (start_key first <= end_key first) as Hfirst
    by (inversion Hwf; assumption).
  pose proof (sorted_last_max end_key first first rest) as Hlast.
  fold (last_of first (first :: rest)) in Hlast.
  apply sorted_app; [|apply sorted_app|].
  - destruct (gap_ge _ _ needed); repeat constructor.
  - apply between_slots_sorted; assumption.
  - destruct (gap_ge _ _ needed); repeat constructor.
  - intros a b Ha Hin.
    destruct (gap_ge _ _ needed); [|destruct Hin]. destruct Hin as [<-|[]].
    apply between_slots_end in Ha. destruct Ha as [n [Hn En]].
    unfold slot_before. cbn [Slot.start]. rewrite instant_add, En.
    rewrite Forall_forall in Hwf.
    specialize (Hlast n He Hn). specialize (Hwf n Hn).
    unfold end_key, start_key in *. lia.
  - intros a b Ha Hin.
    destruct (gap_ge _ _ needed); [|destruct Ha].
    destruct Ha as [<-|[]]. unfold slot_before. cbn [Slot.end_].
    rewrite instant_add. apply in_app_or in Hin. destruct Hin as [Hin|Hin].
    + apply between_slots_start in Hin. destruct Hin as [c [Hc Ec]].
      rewrite Ec. pose proof (sorted_head_le end_key first rest c He Hc).
      unfold end_key, start_key in *. lia.
    + destruct (gap_ge _ _ needed); [|destruct Hin].
      destruct Hin as [<-|[]]. cbn [Slot.start]. rewrite instant_add.
      specialize (Hlast first He ltac:(left; reflexivity)).
      unfold end_key, start_key in *. lia.
Qed.

Lemma slots_in_chronological_order_witness :
  StronglySorted slot_before
    (_find_available_slots eastern_standard scenario_b (Some (days jan_01_2025))
       120 30 (local (jan_01_2025 - 3) 12 0)).
Proof.
  apply slots_in_chronological_order.
  - lia.
  - vm_compute. repeat (constructor || (intro; discriminate)).
  - vm_compute. repeat (constructor || (intro; discriminate)).
Defined.
